(** * Calculator: the input-to-display state machine of [Calculator.tsx]

    A shallow embedding of the calculator component: the display
    formatting helpers, the state record and one function per state
    updater ([setState (prev => ...)] becomes a function from the previous
    record to the next one).  JavaScript numbers are IEEE-754 binary64
    values, modelled by [spec_float] at precision 53; the conversions
    between numbers and strings follow ECMA-262. *)

From Stdlib Require Import Bool Arith ZArith NArith PArith Lia List.
From Stdlib Require Import Ascii String DecimalString.
From Stdlib Require Import Floats.SpecFloat.
Import ListNotations.

Local Open Scope string_scope.

(* ================================================================== *)
(** * JavaScript strings *)

Module JSString.

Definition is_digit (c : ascii) : bool :=
  let n := nat_of_ascii c in ((48 <=? n) && (n <=? 57))%nat.

(** [\w] of a regular expression without flags: [A-Za-z0-9_]. *)
Definition is_word (c : ascii) : bool :=
  let n := nat_of_ascii c in
  is_digit c
  || ((65 <=? n) && (n <=? 90))%nat
  || ((97 <=? n) && (n <=? 122))%nat
  || (n =? 95)%nat.

Definition is_comma (c : ascii) : bool := Ascii.eqb c ",".
Definition is_dot (c : ascii) : bool := Ascii.eqb c ".".

(** [s.includes('.')] *)
Fixpoint includes_dot (s : string) : bool :=
  match s with
  | EmptyString => false
  | String c r => is_dot c || includes_dot r
  end.

(** [s.split('.')[0]]: everything before the first point. *)
Fixpoint before_dot (s : string) : string :=
  match s with
  | EmptyString => EmptyString
  | String c r => if is_dot c then EmptyString else String c (before_dot r)
  end.

(** What follows the first point, if there is one. *)
Fixpoint after_dot (s : string) : option string :=
  match s with
  | EmptyString => None
  | String c r => if is_dot c then Some r else after_dot r
  end.

(** [s.split('.')]: [parts[0]] and, when [parts.length > 1], [parts[1]]
    (the text between the first and the second point). *)
Definition split_dot (s : string) : string * option string :=
  (before_dot s,
   match after_dot s with
   | Some r => Some (before_dot r)
   | None => None
   end).

(** [s.slice(0, -1)] *)
Fixpoint slice_init (s : string) : string :=
  match s with
  | EmptyString => EmptyString
  | String _ EmptyString => EmptyString
  | String c r => String c (slice_init r)
  end.

(** [s || d] on strings: the empty string is falsy. *)
Definition or_else (s d : string) : string :=
  match s with
  | EmptyString => d
  | _ => s
  end.

Definition truthy (s : string) : bool :=
  match s with
  | EmptyString => false
  | _ => true
  end.

Fixpoint count_dots (s : string) : nat :=
  match s with
  | EmptyString => 0
  | String c r => (if is_dot c then 1 else 0) + count_dots r
  end.

Fixpoint has_comma (s : string) : bool :=
  match s with
  | EmptyString => false
  | String c r => is_comma c || has_comma r
  end.

End JSString.

Import JSString.

(* ================================================================== *)
(** * Display formatting *)

Definition MAX_DIGITS : nat := 16.

(** Length of the run of decimal digits a string starts with. *)
Fixpoint digit_run (s : string) : nat :=
  match s with
  | String c r => if is_digit c then S (digit_run r) else 0
  | EmptyString => 0
  end.

(** The lookahead [(?=(\d{3})+(?!\d))]: some positive multiple of three
    digits follows and no digit comes after them, so the digit run that
    starts here has a length that is a positive multiple of three. *)
Definition groups_ahead (s : string) : bool :=
  let l := digit_run s in ((0 <? l) && (l mod 3 =? 0))%nat.

Definition word_at (c : option ascii) : bool :=
  match c with
  | Some a => is_word a
  | None => false
  end.

Definition head_char (s : string) : option ascii :=
  match s with
  | String c _ => Some c
  | EmptyString => None
  end.

(** [\B]: the characters on both sides are of the same kind (the ends of
    the string count as non-word). *)
Definition non_boundary (prev : option ascii) (s : string) : bool :=
  Bool.eqb (word_at prev) (word_at (head_char s)).

Definition separator_here (prev : option ascii) (s : string) : bool :=
  non_boundary prev s && groups_ahead s.

(** [integerPart.replace(/\B(?=(\d{3})+(?!\d))/g, ',')]: the pattern is
    of width zero, so every position of the string is tried once. *)
Fixpoint group_from (prev : option ascii) (s : string) : string :=
  match s with
  | EmptyString => if separator_here prev s then "," else ""
  | String c r =>
      let rest := String c (group_from (Some c) r) in
      if separator_here prev s then String "," rest else rest
  end.

Definition group_thousands (s : string) : string := group_from None s.

Definition formatNumber (num : string) : string :=
  let '(int, frac) := split_dot num in
  let integerPart := group_thousands int in
  match frac with
  | Some f => integerPart ++ "." ++ f
  | None => integerPart
  end.

(** [num.replace(/,/g, '')] *)
Fixpoint unformatNumber (num : string) : string :=
  match num with
  | EmptyString => EmptyString
  | String c r => if is_comma c then unformatNumber r else String c (unformatNumber r)
  end.

(* ================================================================== *)
(** * JavaScript numbers

    The Number type is IEEE-754 binary64 with round-to-nearest-even:
    [spec_float] at [prec = 53], [emax = 1024].  [parseFloat],
    [Number.prototype.toString] and [toExponential] are platform
    functions; they are written here after ECMA-262 (sections
    StringToNumber / parseFloat, Number::toString with the shortest
    round-tripping digits, and Number.prototype.toExponential). *)

Module JSNumber.

Local Open Scope Z_scope.

Definition prec : Z := 53.
Definition emax : Z := 1024.

Definition number : Type := spec_float.

Definition NaN : number := S754_nan.
Definition Infinity : number := S754_infinity false.

Definition add (x y : number) : number := SFadd prec emax x y.
Definition sub (x y : number) : number := SFsub prec emax x y.
Definition mul (x y : number) : number := SFmul prec emax x y.
Definition div (x y : number) : number := SFdiv prec emax x y.
Definition sqrt (x : number) : number := SFsqrt prec emax x.

(** [x < y], [x > y], [x <= y]: false as soon as one side is NaN. *)
Definition lt (x y : number) : bool := SFltb x y.
Definition gt (x y : number) : bool := SFltb y x.
Definition le (x y : number) : bool := SFleb x y.

(** [x === y] on numbers: NaN equals nothing, the two zeros are equal. *)
Definition eq (x y : number) : bool := SFeqb x y.

Definition is_zero (x : number) : bool :=
  match x with
  | S754_zero _ => true
  | _ => false
  end.


Definition isNaN (x : number) : bool :=
  match x with
  | S754_nan => true
  | _ => false
  end.

Definition isFinite (x : number) : bool :=
  match x with
  | S754_nan | S754_infinity _ => false
  | _ => true
  end.


(** A numeric literal with an integer value. *)
Definition of_Z (z : Z) : number := binary_normalize prec emax z 0 false.

(** The Number value for [m * 10^e]: the nearest double, ties to even. *)
Definition of_decimal (neg : bool) (m : N) (e : Z) : number :=
  match m with
  | N0 => S754_zero neg
  | Npos p =>
      match e with
      | Zneg k =>
          let '(q, e2, l) :=
            SFdiv_core_binary prec emax (Zpos p) 0 (Zpos (Pos.pow 10 k)) 0 in
          binary_round_aux prec emax neg q e2 l
      | Z0 => binary_round prec emax neg p 0
      | Zpos k => binary_round prec emax neg (p * Pos.pow 10 k) 0
      end
  end.

(** ** Decimal digits *)

Definition digits10 (n : N) : string := NilZero.string_of_uint (N.to_uint n).

Definition digit_val (c : ascii) : N := N.of_nat (nat_of_ascii c - 48).

Fixpoint zeros (n : nat) : string :=
  match n with
  | O => EmptyString
  | S k => String "0" (zeros k)
  end.

(** [n] written with at least [k] digits (zeros in front). *)
Definition pad_digits (k : nat) (n : N) : string :=
  let d := digits10 n in zeros (k - String.length d) ++ d.

(** ** parseFloat *)

Definition is_space (c : ascii) : bool :=
  let n := nat_of_ascii c in
  ((n =? 32) || ((9 <=? n) && (n <=? 13)))%nat.

Fixpoint trim_start (s : string) : string :=
  match s with
  | String c r => if is_space c then trim_start r else s
  | EmptyString => s
  end.

(** Reads a run of digits: the number read on top of [acc], how many
    digits were read, and the rest of the string. *)
Fixpoint read_digits (s : string) (acc : N) (cnt : nat) : N * nat * string :=
  match s with
  | String c r =>
      if is_digit c
      then read_digits r (acc * 10 + digit_val c)%N (S cnt)
      else (acc, cnt, s)
  | EmptyString => (acc, cnt, s)
  end.

(** ExponentPart: [e] or [E], an optional sign, at least one digit;
    anything else is not part of the literal and counts as no exponent. *)
Definition read_exponent (s : string) : Z :=
  match s with
  | String c r =>
      if Ascii.eqb c "e" || Ascii.eqb c "E" then
        let '(neg, r1) :=
          match r with
          | String "-" r' => (true, r')
          | String "+" r' => (false, r')
          | _ => (false, r)
          end in
        let '(v, cnt, _) := read_digits r1 0%N O in
        match cnt with
        | O => 0
        | _ => if neg then - Z.of_N v else Z.of_N v
        end
      else 0
  | EmptyString => 0
  end.

Definition parseFloat (input : string) : number :=
  let s := trim_start input in
  let '(neg, s1) :=
    match s with
    | String "-" r => (true, r)
    | String "+" r => (false, r)
    | _ => (false, s)
    end in
  if String.prefix "Infinity" s1 then S754_infinity neg
  else
    let '(ip, icnt, s2) := read_digits s1 0%N O in
    let '(m, fcnt, s3) :=
      match s2 with
      | String "." r => read_digits r ip O
      | _ => (ip, O, s2)
      end in
    match (icnt + fcnt)%nat with
    | O => NaN
    | _ => of_decimal neg m (read_exponent s3 - Z.of_nat fcnt)
    end.

(** ** Number::toString *)

(** The value [m * 2^e] of a finite double as a fraction. *)
Definition fraction_of (m : positive) (e : Z) : Z * Z :=
  match e with
  | Zneg k => (Zpos m, Zpos (Pos.pow 2 k))
  | Z0 => (Zpos m, 1)
  | Zpos k => (Zpos (m * Pos.pow 2 k), 1)
  end.

(** [num / den < 10^n] *)
Definition below_pow10 (num den n : Z) : bool :=
  if 0 <=? n then num <? den * 10 ^ n else num * 10 ^ (- n) <? den.

(** The [n] with [10^(n-1) <= num/den < 10^n]. *)
Definition decimal_exponent (num den : Z) : Z :=
  let n0 :=
    if den <=? num
    then Z.of_nat (String.length (digits10 (Z.to_N (num / den))))
    else 1 - Z.of_nat (String.length (digits10 (Z.to_N (den / num)))) in
  if below_pow10 num den n0 then n0 else n0 + 1.

(** [num / den / 10^scale] as a fraction. *)
Definition scale_down (num den scale : Z) : Z * Z :=
  if 0 <=? scale then (num, den * 10 ^ scale) else (num * 10 ^ (- scale), den).

Definition round_trips (m : positive) (e : Z) (s : Z) (scale : Z) : bool :=
  SFeqb (of_decimal false (Z.to_N s) scale) (S754_finite false m e).

(** The [k]-digit candidates around the value: the integer [s] and the
    [n] with [s * 10^(n-k)] converting back to the double; of two
    candidates the one closer to the value, the even one on a tie. *)
Definition candidate (m : positive) (e : Z) (n k : Z) : option (Z * Z) :=
  let '(num, den) := fraction_of m e in
  let '(a, b) := scale_down num den (n - k) in
  let lo := a / b in
  let r := a mod b in
  let hi := lo + 1 in
  let norm s := if s =? 10 ^ k then (10 ^ (k - 1), n + 1) else (s, n) in
  let lo_ok := round_trips m e lo (n - k) in
  let hi_ok := negb (r =? 0) && round_trips m e hi (n - k) in
  match lo_ok, hi_ok with
  | true, false => Some (norm lo)
  | false, true => Some (norm hi)
  | true, true =>
      match 2 * r ?= b with
      | Lt => Some (norm lo)
      | Gt => Some (norm hi)
      | Eq => Some (norm (if Z.even lo then lo else hi))
      end
  | false, false => None
  end.

(** The smallest number of digits that round-trips, from [k] upwards;
    seventeen digits always do. *)
Fixpoint shortest_from (fuel : nat) (m : positive) (e : Z) (n k : Z) : Z * Z :=
  match fuel with
  | O =>
      let '(num, den) := fraction_of m e in
      let '(a, b) := scale_down num den (n - k) in
      ((2 * a + b) / (2 * b), n)
  | S f =>
      match candidate m e n k with
      | Some r => r
      | None => shortest_from f m e n (k + 1)
      end
  end.

Definition shortest_digits (m : positive) (e : Z) : string * Z :=
  let '(num, den) := fraction_of m e in
  let n := decimal_exponent num den in
  let '(s, n') := shortest_from 16 m e n 1 in
  (digits10 (Z.to_N s), n').

Definition exponent_suffix (e : Z) : string :=
  String "e" ((if e <? 0 then "-" else "+") ++ digits10 (Z.abs_N e)).

(** The four layouts of Number::toString for the digits [ds] and the
    exponent [n]. *)
Definition render (ds : string) (n : Z) : string :=
  let k := Z.of_nat (String.length ds) in
  if (k <=? n) && (n <=? 21) then ds ++ zeros (Z.to_nat (n - k))
  else if (0 <? n) && (n <=? 21) then
    substring 0 (Z.to_nat n) ds ++ "." ++ substring (Z.to_nat n) (Z.to_nat (k - n)) ds
  else if (-6 <? n) && (n <=? 0) then "0." ++ zeros (Z.to_nat (- n)) ++ ds
  else
    match ds with
    | String d EmptyString => String d (exponent_suffix (n - 1))
    | String d r => String d ("." ++ r ++ exponent_suffix (n - 1))
    | EmptyString => exponent_suffix (n - 1)
    end.

Definition toString (x : number) : string :=
  match x with
  | S754_nan => "NaN"
  | S754_zero _ => "0"
  | S754_infinity s => if s then "-Infinity" else "Infinity"
  | S754_finite s m e =>
      let '(ds, n) := shortest_digits m e in
      (if s then "-" else "") ++ render ds n
  end.

(** ** Number.prototype.toExponential(8) *)

Definition toExponential8 (x : number) : string :=
  match x with
  | S754_nan | S754_infinity _ => toString x
  | S754_zero _ => "0.00000000e+0"
  | S754_finite s m e =>
      let '(num, den) := fraction_of m e in
      let e0 := decimal_exponent num den - 1 in
      let '(a, b) := scale_down num den (e0 - 8) in
      let n := (2 * a + b) / (2 * b) in
      let '(n1, e1) := if n =? 10 ^ 9 then (10 ^ 8, e0 + 1) else (n, e0) in
      let ds := pad_digits 9 (Z.to_N n1) in
      (if s then "-" else "")
      ++ substring 0 1 ds ++ "." ++ substring 1 8 ds ++ exponent_suffix e1
  end.

(** ** Math *)

(** [Math.PI] and [Math.E]: the Number values for pi and e. *)
Definition PI : number := of_decimal false 31415926535897932384626433832795%N (-31).
Definition E : number := of_decimal false 27182818284590452353602874713527%N (-31).

(** The functions of [Math] whose results ECMA-262 leaves to the
    implementation ("implementation-approximated"). *)
Record MathLib : Type := {
  sin : number -> number;
  cos : number -> number;
  tan : number -> number;
  pow : number -> number -> number;
  log10 : number -> number;
  log : number -> number;
  exp : number -> number
}.

End JSNumber.

Import JSNumber.

(* ================================================================== *)
(** * The calculator state and its updaters *)

Inductive Emotion : Type := happy | neutral | sad | excited.
Inductive Mode : Type := basic | scientific.
Inductive AngleUnit : Type := DEG | RAD.

Record CalculatorState : Type := {
  display : string;
  previousValue : string;
  operation : option string;
  emotion : Emotion;
  mode : Mode;
  memory : number;
  angleUnit : AngleUnit
}.

(** [{ ...prev, display: d }] and its companions. *)
Definition with_display (d : string) (prev : CalculatorState) : CalculatorState :=
  {| display := d;
     previousValue := previousValue prev;
     operation := operation prev;
     emotion := emotion prev;
     mode := mode prev;
     memory := memory prev;
     angleUnit := angleUnit prev |}.

Definition with_emotion (e : Emotion) (prev : CalculatorState) : CalculatorState :=
  {| display := display prev;
     previousValue := previousValue prev;
     operation := operation prev;
     emotion := e;
     mode := mode prev;
     memory := memory prev;
     angleUnit := angleUnit prev |}.

Definition with_pending (pv : string) (op : option string) (prev : CalculatorState)
  : CalculatorState :=
  {| display := display prev;
     previousValue := pv;
     operation := op;
     emotion := emotion prev;
     mode := mode prev;
     memory := memory prev;
     angleUnit := angleUnit prev |}.

Definition initialState : CalculatorState :=
  {| display := "0";
     previousValue := "";
     operation := None;
     emotion := neutral;
     mode := basic;
     memory := of_Z 0;
     angleUnit := DEG |}.

Definition getEmotion (result : number) : Emotion :=
  if gt result (of_Z 1000) then excited
  else if gt result (of_Z 100) then happy
  else if lt result (of_Z 0) then sad
  else neutral.

Definition handleNumber (num : string) (prev : CalculatorState) : CalculatorState :=
  let currentNum := unformatNumber (display prev) in
  if (MAX_DIGITS <=? String.length currentNum)%nat then prev
  else
    let newDisplay := if String.eqb (display prev) "0" then num else currentNum ++ num in
    with_emotion neutral (with_display (formatNumber newDisplay) prev).

Definition handleOperation (op : string) (prev : CalculatorState) : CalculatorState :=
  with_emotion neutral
    (with_display "0" (with_pending (display prev) (Some op) prev)).

(** The [switch (operation)] of [calculate]; [None] is its [default]
    branch, which returns the previous state. *)
Definition apply_operation (op : option string) (prevNum currentNum : number)
  : option number :=
  match op with
  | Some o =>
      if String.eqb o "+" then Some (add prevNum currentNum)
      else if String.eqb o "-" then Some (sub prevNum currentNum)
      else if String.eqb o "×" then Some (mul prevNum currentNum)
      else if String.eqb o "÷" then Some (div prevNum currentNum)
      else None
  | None => None
  end.

(** [if (resultString.length > MAX_DIGITS) result = parseFloat(result.toExponential(8))] *)
Definition shorten (result : number) : number :=
  if (MAX_DIGITS <? String.length (toString result))%nat
  then parseFloat (toExponential8 result)
  else result.

(** The value of [result] when [calculate] builds its new state. *)
Definition calculate_result (prev : CalculatorState) : option number :=
  let prevNum := parseFloat (unformatNumber (previousValue prev)) in
  let currentNum := parseFloat (unformatNumber (display prev)) in
  option_map shorten (apply_operation (operation prev) prevNum currentNum).

Definition calculate (prev : CalculatorState) : CalculatorState :=
  match calculate_result prev with
  | None => prev
  | Some result =>
      with_emotion (getEmotion result)
        (with_pending "" None
           (with_display (formatNumber (toString result)) prev))
  end.

(** [prev.previousValue && prev.operation] as a condition. *)
Definition pending (prev : CalculatorState) : bool :=
  truthy (previousValue prev)
  && match operation prev with
     | Some o => truthy o
     | None => false
     end.

Definition handlePercent (prev : CalculatorState) : CalculatorState :=
  let currentNum := parseFloat (unformatNumber (display prev)) in
  if pending prev then
    let base := parseFloat (unformatNumber (previousValue prev)) in
    let percentValue := div (mul base currentNum) (of_Z 100) in
    with_display (formatNumber (toString percentValue)) prev
  else
    let percentValue := div currentNum (of_Z 100) in
    with_display (formatNumber (toString percentValue)) prev.

Definition clear (prev : CalculatorState) : CalculatorState :=
  with_emotion neutral (with_display "0" (with_pending "" None prev)).

Definition toRadians (degrees : number) : number :=
  mul degrees (div PI (of_Z 180)).

(** [factorial] calls itself with no bound on the depth; [fuel] bounds the
    number of nested calls, as the room on the call stack does when the
    code runs, and [None] says the bound was reached before a
    [return]. *)
Fixpoint factorial (fuel : nat) (n : number) : option number :=
  match fuel with
  | O => None
  | S f =>
      if lt n (of_Z 0) then Some NaN
      else if le n (of_Z 1) then Some (of_Z 1)
      else option_map (mul n) (factorial f (sub n (of_Z 1)))
  end.

(** The [switch (func)] of [handleScientific].  Outer [None]: the call of
    [factorial] did not return within [fuel]; inner [None]: the [default]
    branch. *)
Definition apply_function (M : MathLib) (fuel : nat) (unit : AngleUnit)
  (func : string) (currentNum : number) : option (option number) :=
  let trig (f : number -> number) :=
    match unit with
    | DEG => f (toRadians currentNum)
    | RAD => f currentNum
    end in
  if String.eqb func "sin" then Some (Some (trig (sin M)))
  else if String.eqb func "cos" then Some (Some (trig (cos M)))
  else if String.eqb func "tan" then Some (Some (trig (tan M)))
  else if String.eqb func "sqrt" then Some (Some (sqrt currentNum))
  else if String.eqb func "square" then Some (Some (pow M currentNum (of_Z 2)))
  else if String.eqb func "cube" then Some (Some (pow M currentNum (of_Z 3)))
  else if String.eqb func "log" then Some (Some (log10 M currentNum))
  else if String.eqb func "ln" then Some (Some (log M currentNum))
  else if String.eqb func "!" then option_map Some (factorial fuel currentNum)
  else if String.eqb func "inv" then Some (Some (div (of_Z 1) currentNum))
  else if String.eqb func "exp" then Some (Some (exp M currentNum))
  else if String.eqb func "pi" then Some (Some PI)
  else if String.eqb func "e" then Some (Some E)
  else Some None.

(** The state built from the value of [result]. *)
Definition scientific_state (result : number) (prev : CalculatorState)
  : CalculatorState :=
  if isNaN result || negb (isFinite result)
  then with_emotion sad (with_display "Error" prev)
  else with_emotion (getEmotion result)
         (with_display (formatNumber (toString result)) prev).

(** The angle unit read by the updater is the one of the rendered state,
    which is the previous state when events are handled one at a time. *)
Definition handleScientific (M : MathLib) (fuel : nat) (func : string)
  (prev : CalculatorState) : option CalculatorState :=
  let currentNum := parseFloat (unformatNumber (display prev)) in
  match apply_function M fuel (angleUnit prev) func currentNum with
  | None => None
  | Some None => Some prev
  | Some (Some result) => Some (scientific_state result prev)
  end.

Definition toggleMode (prev : CalculatorState) : CalculatorState :=
  {| display := display prev;
     previousValue := previousValue prev;
     operation := operation prev;
     emotion := emotion prev;
     mode := match mode prev with basic => scientific | scientific => basic end;
     memory := memory prev;
     angleUnit := angleUnit prev |}.

Definition toggleAngleUnit (prev : CalculatorState) : CalculatorState :=
  {| display := display prev;
     previousValue := previousValue prev;
     operation := operation prev;
     emotion := emotion prev;
     mode := mode prev;
     memory := memory prev;
     angleUnit := match angleUnit prev with DEG => RAD | RAD => DEG end |}.

(** The updater of the [.] button and of the [.] key. *)
Definition handleDecimal (prev : CalculatorState) : CalculatorState :=
  let currentNum := unformatNumber (display prev) in
  if includes_dot currentNum then prev
  else with_display (formatNumber (currentNum ++ ".")) prev.

(** The updater of the backspace button and of the [Backspace] key. *)
Definition handleBackspace (prev : CalculatorState) : CalculatorState :=
  let currentNum := unformatNumber (display prev) in
  let newDisplay := or_else (slice_init currentNum) "0" in
  with_display (formatNumber newDisplay) prev.

(* ================================================================== *)
(** * Events and reachable states *)

(** One constructor per button of the two grids; the keyboard handler
    maps its keys to the same updaters. *)
Inductive Event : Type :=
| EvNumber (num : string)
| EvDecimal
| EvBackspace
| EvOperation (op : string)
| EvEquals
| EvPercent
| EvClear
| EvScientific (func : string)
| EvToggleMode
| EvToggleAngleUnit.

Definition digit_keys : list string :=
  ["0"; "1"; "2"; "3"; "4"; "5"; "6"; "7"; "8"; "9"].

Definition operator_keys : list string := ["+"; "-"; "×"; "÷"].

Definition scientific_keys : list string :=
  ["sin"; "cos"; "tan"; "sqrt"; "square"; "cube"; "log"; "ln"; "!"; "inv";
   "exp"; "pi"; "e"].

Definition mem_string (s : string) (l : list string) : bool :=
  existsb (String.eqb s) l.

(** What the interface can send in a state: digits and the four
    operators only, and the scientific grid only while it is rendered. *)
Definition enabled (ev : Event) (st : CalculatorState) : bool :=
  match ev with
  | EvNumber num => mem_string num digit_keys
  | EvOperation op => mem_string op operator_keys
  | EvScientific func =>
      match mode st with
      | scientific => mem_string func scientific_keys
      | basic => false
      end
  | _ => true
  end.

Definition step (M : MathLib) (fuel : nat) (ev : Event) (st : CalculatorState)
  : option CalculatorState :=
  match ev with
  | EvNumber num => Some (handleNumber num st)
  | EvDecimal => Some (handleDecimal st)
  | EvBackspace => Some (handleBackspace st)
  | EvOperation op => Some (handleOperation op st)
  | EvEquals => Some (calculate st)
  | EvPercent => Some (handlePercent st)
  | EvClear => Some (clear st)
  | EvScientific func => handleScientific M fuel func st
  | EvToggleMode => Some (toggleMode st)
  | EvToggleAngleUnit => Some (toggleAngleUnit st)
  end.

(** Handles the events in order; [None] when one is not enabled or does
    not return. *)
Fixpoint run (M : MathLib) (fuel : nat) (evs : list Event) (st : CalculatorState)
  : option CalculatorState :=
  match evs with
  | [] => Some st
  | ev :: rest =>
      if enabled ev st then
        match step M fuel ev st with
        | Some st' => run M fuel rest st'
        | None => None
        end
      else None
  end.

(** The states reached from the initial one by enabled events of the
    kind [allowed]. *)
Inductive reachable_by (M : MathLib) (allowed : Event -> bool)
  : CalculatorState -> Prop :=
| reachable_init : reachable_by M allowed initialState
| reachable_step : forall st ev fuel st',
    reachable_by M allowed st ->
    allowed ev = true ->
    enabled ev st = true ->
    step M fuel ev st = Some st' ->
    reachable_by M allowed st'.

Definition any_event (ev : Event) : bool := true.

Definition reachable (M : MathLib) : CalculatorState -> Prop :=
  reachable_by M any_event.

(** Digit entry, backspace, operator selection, clear and the toggles. *)
Definition entry_event (ev : Event) : bool :=
  match ev with
  | EvNumber _ | EvBackspace | EvOperation _ | EvClear
  | EvToggleMode | EvToggleAngleUnit => true
  | _ => false
  end.

(** The same with the decimal point. *)
Definition typing_event (ev : Event) : bool :=
  match ev with
  | EvDecimal => true
  | _ => entry_event ev
  end.

(** One event per character of a string of digits. *)
Definition type_digits (s : string) : list Event :=
  map (fun c => EvNumber (String c "")) (list_ascii_of_string s).

(** Where the recursion of [factorial] stands after [k] calls, and whether
    one of its two guards fires there. *)
Fixpoint countdown (k : nat) (n : number) : number :=
  match k with
  | O => n
  | S j => countdown j (sub n (of_Z 1))
  end.

Definition stops (n : number) : bool := lt n (of_Z 0) || le n (of_Z 1).



(** A library whose approximated functions all answer NaN; it serves
    where a concrete library is needed and none of these is called. *)
Definition nanMath : MathLib :=
  {| sin := fun _ => NaN;
     cos := fun _ => NaN;
     tan := fun _ => NaN;
     pow := fun _ _ => NaN;
     log10 := fun _ => NaN;
     log := fun _ => NaN;
     exp := fun _ => NaN |}.

(** The states in which the pending-operation fields agree: an operator
    is stored exactly when a left operand is. *)
Definition pending_consistent (st : CalculatorState) : Prop :=
  operation st <> None <-> previousValue st <> "".

(** What every reachable state satisfies: something is displayed, the
    pending-operation fields agree and a stored operator is one of the
    four operator keys. *)
Definition well_formed (st : CalculatorState) : Prop :=
  display st <> ""
  /\ pending_consistent st
  /\ (forall op, operation st = Some op -> mem_string op operator_keys = true).

(** An unformatted string that grouping can be undone on: it holds no
    separator and at most one decimal point. *)
Definition unformatted_valid (s : string) : bool :=
  negb (has_comma s) && (count_dots s <=? 1)%nat.

Fixpoint all_digits (s : string) : bool :=
  match s with
  | EmptyString => true
  | String c r => is_digit c && all_digits r
  end.

(** A decimal numeral: an optional minus sign, digits, and optionally a
    point followed by digits. *)
Definition is_numeral (s : string) : bool :=
  let body :=
    match s with
    | String c r => if Ascii.eqb c "-" then r else s
    | EmptyString => s
    end in
  all_digits (before_dot body)
  && match after_dot body with
     | Some r => all_digits r
     | None => true
     end.

(* ================================================================== *)
(** * The keyboard *)

(** [/^[0-9]$/.test(key)] *)
Definition is_digit_key (key : string) : bool :=
  match key with
  | String c EmptyString => is_digit c
  | _ => false
  end.

(** The [keydown] listener: the updater a key runs, as the event of the
    button with the same updater; [None] when the listener returns
    without calling [setState]. *)
Definition handleKeyDown (repeat : bool) (key : string) : option Event :=
  if repeat then None
  else if is_digit_key key then Some (EvNumber key)
  else if String.eqb key "." then Some EvDecimal
  else if String.eqb key "+" || String.eqb key "-" then Some (EvOperation key)
  else if String.eqb key "*" || String.eqb key "x" || String.eqb key "X"
  then Some (EvOperation "×")
  else if String.eqb key "/" || String.eqb key "÷" then Some (EvOperation "÷")
  else if String.eqb key "Enter" || String.eqb key "=" then Some EvEquals
  else if String.eqb key "Backspace" then Some EvBackspace
  else if String.eqb key "%" then Some EvPercent
  else if String.eqb key "c" || String.eqb key "C" then Some EvClear
  else None.

(** The events that have a key. *)
Definition keyboard_event (ev : Event) : bool :=
  match ev with
  | EvScientific _ | EvToggleMode | EvToggleAngleUnit => false
  | _ => true
  end.

(** Every event but the scientific functions. *)
Definition basic_event (ev : Event) : bool :=
  match ev with
  | EvScientific _ => false
  | _ => true
  end.

(* ================================================================== *)
(** * Predicates on strings, numbers and states used in the statements *)

Fixpoint all_chars (P : ascii -> bool) (s : string) : bool :=
  match s with
  | EmptyString => true
  | String c r => P c && all_chars P r
  end.

(** The characters of the strings that [toString] produces. *)
Definition number_char (c : ascii) : bool :=
  is_digit c || existsb (Ascii.eqb c) (list_ascii_of_string ".-+eNaInfity").

Definition not_E (c : ascii) : bool := negb (Ascii.eqb c "E").

(** A string of digits that does not start with a zero. *)
Definition head_nonzero (s : string) : bool :=
  match s with
  | String c _ => negb (Ascii.eqb c "0")
  | EmptyString => false
  end.

(** The display is the formatted form of what it unformats to, and that
    holds at most one decimal point. *)
Definition consistent_display (st : CalculatorState) : Prop :=
  unformatted_valid (unformatNumber (display st)) = true
  /\ formatNumber (unformatNumber (display st)) = display st.

(** Below zero: a negative finite value that is not a zero, or -Infinity. *)
Definition is_negative (x : number) : bool :=
  match x with
  | S754_finite true _ _ | S754_infinity true => true
  | _ => false
  end.

(** [n!] as an integer. *)
Fixpoint Zfact (n : nat) : Z :=
  match n with
  | O => 1%Z
  | S k => (Z.of_nat (S k) * Zfact k)%Z
  end.

(** Whether [factorial] returns on [n], with a finite result that prints
    as the decimal numeral of [n!]. *)
Definition factorial_shows (n : nat) : bool :=
  match factorial (S n) (of_Z (Z.of_nat n)) with
  | Some r =>
      negb (isNaN r || negb (isFinite r))
      && String.eqb (toString r) (digits10 (Z.to_N (Zfact n)))
  | None => false
  end.

(* ================================================================== *)
(** * Formatting: examples and lemmas *)

Example format_examples :
  formatNumber "1234567" = "1,234,567" /\
  formatNumber "-123456" = "-123,456" /\
  formatNumber "1234.56789" = "1,234.56789" /\
  formatNumber "1e+21" = "1e+21" /\
  formatNumber "100" = "100" /\
  formatNumber "1.2.3" = "1.2" /\
  formatNumber "Infinity" = "Infinity".
Proof. repeat split; reflexivity. Qed.

Section FormatLemmas.

Lemma unformat_app (s t : string) :
  unformatNumber (s ++ t) = unformatNumber s ++ unformatNumber t.
Proof.
  induction s as [|c s IH]; simpl; [reflexivity|].
  destruct (is_comma c); simpl; now rewrite IH.
Qed.

Lemma unformat_group_from (prev : option ascii) (s : string) :
  unformatNumber (group_from prev s) = unformatNumber s.
Proof.
  revert prev; induction s as [|c s IH]; intros prev; simpl.
  - destruct (separator_here prev ""); reflexivity.
  - destruct (separator_here prev (String c s)); simpl; now rewrite IH.
Qed.

Lemma unformat_no_comma (s : string) :
  has_comma s = false -> unformatNumber s = s.
Proof.
  induction s as [|c s IH]; simpl; [reflexivity|].
  destruct (is_comma c); simpl; [discriminate|].
  intros H; now rewrite IH.
Qed.

Lemma unformat_has_comma (s : string) : has_comma (unformatNumber s) = false.
Proof.
  induction s as [|c s IH]; simpl; [reflexivity|].
  destruct (is_comma c) eqn:E; simpl; [assumption|].
  now rewrite E.
Qed.

Lemma unformat_length (s : string) :
  String.length (unformatNumber s) <= String.length s.
Proof.
  induction s as [|c s IH]; simpl; [lia|].
  destruct (is_comma c); simpl; lia.
Qed.

Lemma app_length (s t : string) :
  String.length (s ++ t) = String.length s + String.length t.
Proof. induction s as [|c s IH]; simpl; [reflexivity|]. now rewrite IH. Qed.

(** What is left of [formatNumber s] once the separators are removed
    again: the two parts that [split] kept. *)
Lemma unformat_format (s : string) :
  unformatNumber (formatNumber s)
  = unformatNumber (before_dot s)
    ++ match after_dot s with
       | Some r => String "." (unformatNumber (before_dot r))
       | None => ""
       end.
Proof.
  unfold formatNumber, split_dot, group_thousands.
  destruct (after_dot s) as [r|].
  - rewrite unformat_app, unformat_group_from. reflexivity.
  - rewrite unformat_group_from.
    induction (unformatNumber (before_dot s)) as [|c u IH]; simpl; congruence.
Qed.

Lemma before_dot_length (s : string) :
  String.length (before_dot s) <= String.length s.
Proof.
  induction s as [|c s IH]; simpl; [lia|].
  destruct (is_dot c); simpl; lia.
Qed.

Lemma split_length (s : string) :
  String.length (before_dot s)
  + match after_dot s with
    | Some r => S (String.length r)
    | None => 0
    end
  = String.length s.
Proof.
  induction s as [|c s IH]; simpl; [reflexivity|].
  destruct (is_dot c); simpl; lia.
Qed.

(** Formatting and unformatting never lengthens a string. *)
Lemma unformat_format_length (s : string) :
  String.length (unformatNumber (formatNumber s)) <= String.length s.
Proof.
  rewrite unformat_format, app_length.
  pose proof (split_length s) as Hs.
  pose proof (unformat_length (before_dot s)) as Hb.
  destruct (after_dot s) as [r|]; simpl.
  - pose proof (unformat_length (before_dot r)).
    pose proof (before_dot_length r). lia.
  - lia.
Qed.

Lemma before_dot_no_dot (s : string) :
  count_dots s = 0 -> before_dot s = s /\ after_dot s = None.
Proof.
  induction s as [|c s IH]; simpl; [auto|].
  destruct (is_dot c); simpl; [discriminate|].
  intros H; destruct (IH H) as [-> ->]; auto.
Qed.

(** With at most one point, [split] loses nothing. *)
Lemma split_rejoin (s : string) :
  count_dots s <= 1 ->
  before_dot s
  ++ match after_dot s with
     | Some r => String "." (before_dot r)
     | None => ""
     end
  = s.
Proof.
  induction s as [|c s IH]; simpl; [reflexivity|].
  destruct (is_dot c) eqn:E; simpl; intros H.
  - destruct (before_dot_no_dot s) as [-> _]; [lia|].
    apply Ascii.eqb_eq in E; now subst c.
  - now rewrite IH.
Qed.

Lemma has_comma_app (s t : string) :
  has_comma (s ++ t) = has_comma s || has_comma t.
Proof.
  induction s as [|c s IH]; simpl; [reflexivity|].
  now rewrite IH, orb_assoc.
Qed.

Lemma has_comma_before_dot (s : string) :
  has_comma s = false -> has_comma (before_dot s) = false.
Proof.
  induction s as [|c s IH]; simpl; [reflexivity|].
  destruct (is_dot c); simpl; [reflexivity|].
  destruct (is_comma c); simpl; [discriminate|assumption].
Qed.

Lemma has_comma_after_dot (s r : string) :
  has_comma s = false -> after_dot s = Some r -> has_comma r = false.
Proof.
  induction s as [|c s IH]; simpl; [discriminate|].
  destruct (is_comma c); simpl; [discriminate|].
  destruct (is_dot c); [now intros H [= ->]|assumption].
Qed.

Lemma includes_dot_unformat (s : string) :
  includes_dot (unformatNumber s) = includes_dot s.
Proof.
  induction s as [|c s IH]; simpl; [reflexivity|].
  destruct (is_comma c) eqn:E; simpl.
  - apply Ascii.eqb_eq in E; subst c. exact IH.
  - now rewrite IH.
Qed.

Lemma includes_dot_app (s t : string) :
  includes_dot (s ++ t) = includes_dot s || includes_dot t.
Proof.
  induction s as [|c s IH]; simpl; [reflexivity|].
  now rewrite IH, orb_assoc.
Qed.

Lemma after_dot_includes (s : string) :
  includes_dot s = match after_dot s with Some _ => true | None => false end.
Proof.
  induction s as [|c s IH]; simpl; [reflexivity|].
  destruct (is_dot c); simpl; [reflexivity|assumption].
Qed.

(** A point survives formatting. *)
Lemma includes_dot_format (s : string) :
  includes_dot s = true ->
  includes_dot (unformatNumber (formatNumber s)) = true.
Proof.
  intros H. rewrite unformat_format, includes_dot_app.
  rewrite after_dot_includes in H.
  destruct (after_dot s); [|discriminate].
  simpl. apply orb_true_r.
Qed.

Lemma formatNumber_nonempty (s : string) : s <> "" -> formatNumber s <> "".
Proof.
  intros Hs Hf.
  assert (H : unformatNumber (formatNumber s) = "") by now rewrite Hf.
  rewrite unformat_format in H.
  destruct s as [|c s]; [congruence|]. simpl in H.
  destruct (is_dot c) eqn:Ed; simpl in H; [discriminate|].
  destruct (is_comma c) eqn:Ec; simpl in H; [|discriminate].
  clear H. unfold formatNumber, split_dot, group_thousands in Hf.
  simpl in Hf. rewrite Ed in Hf. simpl in Hf.
  destruct (after_dot s);
    destruct (separator_here None (String c (before_dot s))); discriminate.
Qed.

Lemma digit_not_comma (c : ascii) : is_digit c = true -> is_comma c = false.
Proof.
  intros H. destruct (is_comma c) eqn:E; [|reflexivity].
  apply Ascii.eqb_eq in E; subst c. discriminate H.
Qed.

Lemma split_valid (b : string) :
  all_digits (before_dot b) = true ->
  match after_dot b with
  | Some r => all_digits r = true
  | None => True
  end ->
  has_comma b = false /\ count_dots b <= 1.
Proof.
  induction b as [|c b IH]; simpl; [auto|].
  destruct (is_dot c) eqn:Ed; simpl.
  - intros _ Hr. apply Ascii.eqb_eq in Ed; subst c. simpl.
    clear IH. induction b as [|d b IH]; simpl in *; [auto|].
    apply andb_prop in Hr as [Hd Hr]. destruct (IH Hr) as [Hc Hn].
    rewrite (digit_not_comma d Hd), Hc.
    destruct (is_dot d) eqn:E; [|auto].
    apply Ascii.eqb_eq in E; subst d. discriminate Hd.
  - intros Hb Hr. apply andb_prop in Hb as [Hd Hb].
    destruct (IH Hb Hr) as [Hc Hn].
    now rewrite (digit_not_comma c Hd), Hc.
Qed.

(** Every decimal numeral is a valid unformatted string. *)
Lemma numeral_valid (s : string) :
  is_numeral s = true -> unformatted_valid s = true.
Proof.
  unfold is_numeral, unformatted_valid. intros H.
  apply andb_prop in H as [Hb Hr].
  assert (Hv : forall b,
             all_digits (before_dot b) = true ->
             match after_dot b with Some r => all_digits r | None => true end = true ->
             negb (has_comma b) && (count_dots b <=? 1)%nat = true).
  { intros b H1 H2. destruct (split_valid b H1) as [Hc Hn].
    - destruct (after_dot b); [assumption|exact I].
    - rewrite Hc. simpl. now apply Nat.leb_le. }
  destruct s as [|c s]; [reflexivity|].
  destruct (Ascii.eqb c "-") eqn:E; [|now apply Hv].
  apply Ascii.eqb_eq in E; subst c.
  specialize (Hv s Hb Hr). simpl in *. exact Hv.
Qed.

End FormatLemmas.

(** C4: for every unformatted string that holds no grouping separator
    and at most one decimal point (every decimal numeral is one),
    removing the separators from its formatted form gives the string
    back: [unformatNumber (formatNumber s) = s]. *)
Theorem unformat_format_inverse (s : string) :
  unformatted_valid s = true ->
  unformatNumber (formatNumber s) = s.
Proof.
  unfold unformatted_valid. intros H.
  apply andb_prop in H as [Hc Hd].
  apply negb_true_iff in Hc. apply Nat.leb_le in Hd.
  rewrite unformat_format.
  rewrite (unformat_no_comma (before_dot s)) by now apply has_comma_before_dot.
  rewrite <- (split_rejoin s Hd) at 3.
  destruct (after_dot s) as [r|] eqn:Er; [|reflexivity].
  rewrite (unformat_no_comma (before_dot r)); [reflexivity|].
  apply has_comma_before_dot. now apply (has_comma_after_dot s).
Qed.

Lemma unformat_format_inverse_witness :
  unformatted_valid "-1234567.125" = true
  /\ formatNumber "-1234567.125" = "-1,234,567.125"
  /\ unformatNumber (formatNumber "-1234567.125") = "-1234567.125".
Proof.
  split; [reflexivity|]. split; [reflexivity|].
  apply unformat_format_inverse. reflexivity.
Defined.

Lemma count_dots_app (s t : string) :
  count_dots (s ++ t) = count_dots s + count_dots t.
Proof.
  induction s as [|c s IH]; simpl; [reflexivity|]. rewrite IH. lia.
Qed.

Lemma count_dots_before_dot (s : string) : count_dots (before_dot s) = 0.
Proof.
  induction s as [|c s IH]; simpl; [reflexivity|].
  destruct (is_dot c) eqn:E; simpl; [reflexivity|]. now rewrite E.
Qed.

Lemma count_dots_unformat (s : string) :
  count_dots (unformatNumber s) = count_dots s.
Proof.
  induction s as [|c s IH]; simpl; [reflexivity|].
  destruct (is_comma c) eqn:E; simpl.
  - apply Ascii.eqb_eq in E; subst c. exact IH.
  - now rewrite IH.
Qed.

(** The condition is also necessary: a separator or a second point in
    [s] does not come back. *)
Lemma round_trip_only_if_valid (s : string) :
  unformatNumber (formatNumber s) = s -> unformatted_valid s = true.
Proof.
  intros H. unfold unformatted_valid. apply andb_true_intro. split.
  - rewrite <- H, unformat_has_comma. reflexivity.
  - apply Nat.leb_le. rewrite <- H, unformat_format, count_dots_app.
    rewrite count_dots_unformat, count_dots_before_dot.
    destruct (after_dot s) as [r|]; simpl; [|lia].
    rewrite count_dots_unformat, count_dots_before_dot. lia.
Qed.

(* ================================================================== *)
(** * Digit entry and the digit cap *)

Lemma digit_key_length (num : string) :
  mem_string num digit_keys = true -> String.length num = 1.
Proof.
  unfold mem_string, digit_keys. simpl. intros H.
  repeat (apply orb_prop in H as [H|H];
          [apply String.eqb_eq in H; subst num; reflexivity|]).
  discriminate H.
Qed.

Lemma handleNumber_length (num : string) (st : CalculatorState) :
  String.length num = 1 ->
  handleNumber num st = st
  \/ String.length (unformatNumber (display (handleNumber num st))) <= MAX_DIGITS.
Proof.
  intros Hn. unfold handleNumber.
  destruct (MAX_DIGITS <=? String.length (unformatNumber (display st)))%nat eqn:Hcap;
    [now left|right].
  apply Nat.leb_gt in Hcap. simpl.
  destruct (String.eqb (display st) "0").
  - pose proof (unformat_format_length num). unfold MAX_DIGITS. lia.
  - pose proof (unformat_format_length (unformatNumber (display st) ++ num)) as H.
    rewrite app_length in H. lia.
Qed.

(** C9: a digit typed while the unformatted display has 16 characters (or
    more) leaves the state as it is; and whatever the state, digit entry
    either leaves it as it is or produces an unformatted display of at
    most 16 characters, so it keeps a display within the cap within the
    cap. *)
Theorem digit_entry_cap (num : string) (st : CalculatorState) :
  mem_string num digit_keys = true ->
  (MAX_DIGITS <= String.length (unformatNumber (display st)) ->
   handleNumber num st = st)
  /\ (handleNumber num st = st
      \/ String.length (unformatNumber (display (handleNumber num st))) <= MAX_DIGITS)
  /\ (String.length (unformatNumber (display st)) <= MAX_DIGITS ->
      String.length (unformatNumber (display (handleNumber num st))) <= MAX_DIGITS).
Proof.
  intros Hk. apply digit_key_length in Hk.
  split; [|split].
  - intros Hcap. unfold handleNumber.
    apply Nat.leb_le in Hcap. now rewrite Hcap.
  - now apply handleNumber_length.
  - intros Hle. destruct (handleNumber_length num st Hk) as [-> | H]; assumption.
Qed.

Lemma digit_entry_cap_witness :
  String.length
    (unformatNumber (display (with_display "1,234,567,890,123,456" initialState)))
  = 16
  /\ handleNumber "7" (with_display "1,234,567,890,123,456" initialState)
     = with_display "1,234,567,890,123,456" initialState
  /\ display (handleNumber "7" (with_display "123" initialState)) = "1,237".
Proof.
  split; [reflexivity|]. split; [|reflexivity].
  apply (digit_entry_cap "7"); [reflexivity|].
  unfold MAX_DIGITS. simpl. lia.
Defined.

Lemma run_reachable (M : MathLib) (allowed : Event -> bool) (fuel : nat)
  (evs : list Event) (st st' : CalculatorState) :
  reachable_by M allowed st ->
  forallb allowed evs = true ->
  run M fuel evs st = Some st' ->
  reachable_by M allowed st'.
Proof.
  revert st. induction evs as [|ev evs IH]; simpl; intros st Hr Ha Hrun.
  - now injection Hrun as <-.
  - apply andb_prop in Ha as [Ha Hrest].
    destruct (enabled ev st) eqn:He; [|discriminate].
    destruct (step M fuel ev st) as [st1|] eqn:Hs; [|discriminate].
    apply (IH st1); try assumption.
    now apply (reachable_step M allowed st ev fuel).
Qed.


Lemma slice_init_length (u : string) :
  String.length (slice_init u) = Nat.pred (String.length u).
Proof.
  induction u as [|c u IH]; [reflexivity|].
  destruct u as [|d u]; [reflexivity|].
  change (slice_init (String c (String d u)))
    with (String c (slice_init (String d u))).
  change (S (String.length (slice_init (String d u)))
          = String.length (String d u)).
  rewrite IH. reflexivity.
Qed.

Lemma backspace_length (u : string) :
  String.length (or_else (slice_init u) "0")
  <= Nat.max 1 (Nat.pred (String.length u)).
Proof.
  pose proof (slice_init_length u) as H.
  destruct (slice_init u); unfold or_else.
  - change (1 <= Nat.max 1 (Nat.pred (String.length u))). lia.
  - lia.
Qed.




(** With the decimal point among the events the bound is seventeen: the
    point may be appended to sixteen digits, and nothing after it. *)
Lemma display_cap_typing (M : MathLib) (st : CalculatorState) :
  reachable_by M typing_event st ->
  String.length (unformatNumber (display st)) <= MAX_DIGITS
  \/ (String.length (unformatNumber (display st)) <= S MAX_DIGITS
      /\ includes_dot (unformatNumber (display st)) = true).
Proof.
  induction 1 as [|st ev fuel st' _ IH Ha He Hs].
  - left. unfold MAX_DIGITS. simpl. lia.
  - destruct ev; simpl in Ha; try discriminate; simpl in Hs;
      injection Hs as <-.
    + simpl in He.
      destruct (handleNumber_length num st (digit_key_length num He))
        as [-> | H]; [assumption|now left].
    + unfold handleDecimal.
      destruct (includes_dot (unformatNumber (display st))) eqn:Hdot.
      { destruct IH as [IH|[IH _]]; [now left|right; now split]. }
      destruct IH as [IH|[_ IH]]; [|congruence].
      right. cbn [display with_display]. split.
      * pose proof (unformat_format_length (unformatNumber (display st) ++ ".")) as H.
        rewrite app_length in H. simpl in H. lia.
      * apply includes_dot_format. rewrite includes_dot_app. apply orb_true_r.
    + left. cbn [handleBackspace display with_display].
      pose proof (unformat_format_length
                    (or_else (slice_init (unformatNumber (display st))) "0")).
      pose proof (backspace_length (unformatNumber (display st))).
      unfold MAX_DIGITS in *. destruct IH as [IH|[IH _]]; lia.
    + left. unfold MAX_DIGITS. simpl. lia.
    + left. unfold MAX_DIGITS. simpl. lia.
    + exact IH.
    + exact IH.
Qed.

(* ================================================================== *)
(** * Numbers and strings: known values *)

Example parseFloat_examples :
  parseFloat "0.1" = S754_finite false 7205759403792794 (-56)
  /\ parseFloat "1000" = of_Z 1000
  /\ parseFloat "-4" = of_Z (-4)
  /\ parseFloat "5." = of_Z 5
  /\ parseFloat "1e+21" = of_Z (10 ^ 21)
  /\ parseFloat "9007199254740993" = of_Z 9007199254740992
  /\ parseFloat "Infinity" = Infinity
  /\ parseFloat "Error" = NaN
  /\ parseFloat "" = NaN
  /\ parseFloat "." = NaN.
Proof. vm_compute. repeat split. Qed.

Example toString_examples :
  toString (add (parseFloat "0.1") (parseFloat "0.2")) = "0.30000000000000004"
  /\ toString (div (of_Z 1) (of_Z 3)) = "0.3333333333333333"
  /\ toString (of_Z (10 ^ 20)) = "100000000000000000000"
  /\ toString (of_Z (10 ^ 21)) = "1e+21"
  /\ toString (parseFloat "0.000001") = "0.000001"
  /\ toString (parseFloat "0.0000001") = "1e-7"
  /\ toString (parseFloat "5e-324") = "5e-324"
  /\ toString (parseFloat "1.7976931348623157e308") = "1.7976931348623157e+308"
  /\ toString (parseFloat "1e309") = "Infinity"
  /\ toString (sqrt (of_Z 2)) = "1.4142135623730951"
  /\ toString PI = "3.141592653589793"
  /\ toString E = "2.718281828459045"
  /\ toString (of_Z (-4)) = "-4"
  /\ toString (S754_zero true) = "0".
Proof. vm_compute. repeat split. Qed.

Example toExponential8_examples :
  toExponential8 (of_Z 0) = "0.00000000e+0"
  /\ toExponential8 (of_Z 123456789012) = "1.23456789e+11"
  /\ toExponential8 (div (of_Z 1) (of_Z 3)) = "3.33333333e-1"
  /\ toExponential8 (mul (of_Z 9999999999) (of_Z 9999999999)) = "1.00000000e+20"
  /\ toExponential8 (of_Z (-15)) = "-1.50000000e+1".
Proof. vm_compute. repeat split. Qed.

(** The tests of the specification that run through [calculate]. *)
Example calculate_examples :
  option_map (fun st => (display st, emotion st))
    (run nanMath 0 [EvNumber "2"; EvOperation "+"; EvNumber "3"; EvEquals]
       initialState) = Some ("5", neutral)
  /\ option_map (fun st => (display st, emotion st))
       (run nanMath 0 (type_digits "1500" ++ [EvOperation "+"; EvEquals])
          initialState) = Some ("1,500", excited)
  /\ calculate initialState = initialState
  /\ option_map display
       (run nanMath 0
          (type_digits "9999999999" ++ [EvOperation "×"]
           ++ type_digits "9999999999" ++ [EvEquals])
          initialState) = Some "100,000,000,000,000,000,000".
Proof. vm_compute. repeat split. Qed.

(* ================================================================== *)
(** * Number to string: the result is never empty *)

Lemma digits10_nonempty (n : N) : digits10 n <> "".
Proof.
  unfold digits10, NilZero.string_of_uint.
  destruct (N.to_uint n); simpl; discriminate.
Qed.

Lemma app_nonempty_l (s t : string) : s <> "" -> s ++ t <> "".
Proof. destruct s; [congruence|discriminate]. Qed.

Lemma app_nonempty_r (s t : string) : t <> "" -> s ++ t <> "".
Proof. destruct s; [trivial|discriminate]. Qed.

Lemma render_nonempty (ds : string) (n : Z) : ds <> "" -> render ds n <> "".
Proof.
  intros Hds. unfold render.
  destruct ((Z.of_nat (String.length ds) <=? n)%Z && (n <=? 21)%Z).
  { now apply app_nonempty_l. }
  destruct ((0 <? n)%Z && (n <=? 21)%Z).
  { apply app_nonempty_r. discriminate. }
  destruct ((-6 <? n)%Z && (n <=? 0)%Z).
  { discriminate. }
  destruct ds as [|d [|d' r]]; [congruence|discriminate|discriminate].
Qed.

Lemma shortest_digits_nonempty (m : positive) (e : Z) :
  fst (shortest_digits m e) <> "".
Proof.
  unfold shortest_digits.
  destruct (fraction_of m e) as [num den].
  destruct (shortest_from 16 m e (decimal_exponent num den) 1) as [s n].
  apply digits10_nonempty.
Qed.

Lemma toString_nonempty (x : number) : toString x <> "".
Proof.
  destruct x as [s|s| |s m e]; simpl; try discriminate.
  - destruct s; discriminate.
  - pose proof (shortest_digits_nonempty m e) as H.
    destruct (shortest_digits m e) as [ds n]. simpl in H.
    apply app_nonempty_r. now apply render_nonempty.
Qed.

Lemma formatted_number_nonempty (x : number) : formatNumber (toString x) <> "".
Proof. apply formatNumber_nonempty, toString_nonempty. Qed.

(* ================================================================== *)
(** * The pending operation *)

Lemma operator_key_truthy (op : string) :
  mem_string op operator_keys = true -> truthy op = true.
Proof.
  unfold mem_string, operator_keys. simpl. intros H.
  repeat (apply orb_prop in H as [H|H];
          [apply String.eqb_eq in H; subst op; reflexivity|]).
  discriminate H.
Qed.

Lemma initial_well_formed : well_formed initialState.
Proof.
  repeat split; simpl; try congruence; discriminate.
Qed.

(** Every enabled event leads from a well-formed state to a well-formed
    state. *)
Lemma step_well_formed (M : MathLib) (fuel : nat) (ev : Event)
  (st st' : CalculatorState) :
  well_formed st ->
  enabled ev st = true ->
  step M fuel ev st = Some st' ->
  well_formed st'.
Proof.
  intros (Hd & Hp & Hk) He Hs. unfold well_formed, pending_consistent in *.
  destruct ev; simpl in Hs.
  - (* digit *)
    injection Hs as <-. unfold handleNumber.
    destruct (MAX_DIGITS <=? String.length (unformatNumber (display st)))%nat;
      [auto|]. simpl. split; [|auto].
    apply formatNumber_nonempty. simpl in He.
    pose proof (digit_key_length num He) as Hl.
    destruct (String.eqb (display st) "0").
    + destruct num; [discriminate|discriminate].
    + apply app_nonempty_r. destruct num; discriminate.
  - (* decimal point *)
    injection Hs as <-. unfold handleDecimal.
    destruct (includes_dot (unformatNumber (display st))); [auto|].
    simpl. split; [|auto].
    apply formatNumber_nonempty, app_nonempty_r. discriminate.
  - (* backspace *)
    injection Hs as <-. simpl. split; [|auto].
    apply formatNumber_nonempty.
    destruct (slice_init (unformatNumber (display st))); discriminate.
  - (* operator *)
    injection Hs as <-. simpl. split; [discriminate|]. split.
    + split; intros _; [assumption|discriminate].
    + intros o [= <-]. exact He.
  - (* equals *)
    injection Hs as <-. unfold calculate.
    destruct (calculate_result st) as [r|]; [|auto].
    simpl. split; [apply formatted_number_nonempty|]. split.
    + split; intros H; now elim H.
    + discriminate.
  - (* percent *)
    injection Hs as <-. unfold handlePercent.
    destruct (pending st); simpl; (split; [apply formatted_number_nonempty|auto]).
  - (* clear *)
    injection Hs as <-. simpl. split; [discriminate|]. split.
    + split; intros H; now elim H.
    + discriminate.
  - (* scientific function *)
    unfold handleScientific in Hs.
    destruct (apply_function M fuel (angleUnit st) func
                (parseFloat (unformatNumber (display st)))) as [[r|]|];
      [| |discriminate]; injection Hs as <-; [|auto].
    unfold scientific_state.
    destruct (isNaN r || negb (isFinite r)); simpl;
      (split; [|auto]); [discriminate|apply formatted_number_nonempty].
  - injection Hs as <-. simpl. auto.
  - injection Hs as <-. simpl. auto.
Qed.

Lemma reachable_well_formed (M : MathLib) (allowed : Event -> bool)
  (st : CalculatorState) :
  reachable_by M allowed st -> well_formed st.
Proof.
  induction 1 as [|st ev fuel st' _ IH _ He Hs].
  - exact initial_well_formed.
  - exact (step_well_formed M fuel ev st st' IH He Hs).
Qed.

(** C5: in every state reachable from the initial state an operator is
    stored exactly when the stored left operand is not empty, and the
    state after any further event has the same property. *)
Theorem pending_operation_invariant (M : MathLib) (st : CalculatorState) :
  reachable M st ->
  (operation st <> None <-> previousValue st <> "")
  /\ (forall ev fuel st',
         enabled ev st = true ->
         step M fuel ev st = Some st' ->
         (operation st' <> None <-> previousValue st' <> "")).
Proof.
  intros Hr. split.
  - apply (reachable_well_formed M any_event st Hr).
  - intros ev fuel st' He Hs.
    apply (step_well_formed M fuel ev st st'); try assumption.
    apply (reachable_well_formed M any_event st Hr).
Qed.

Lemma pending_operation_invariant_witness :
  exists st,
    run nanMath 0 [EvNumber "2"; EvOperation "+"; EvNumber "3"] initialState = Some st
    /\ operation st = Some "+" /\ previousValue st = "2"
    /\ (operation st <> None <-> previousValue st <> "")
    /\ (operation (calculate st) <> None <-> previousValue (calculate st) <> "").
Proof.
  eexists. split; [vm_compute; reflexivity|].
  split; [reflexivity|]. split; [reflexivity|].
  match goal with
  | |- (operation ?s <> _ <-> _) /\ _ =>
      assert (Hr : reachable nanMath s)
  end.
  { apply (run_reachable nanMath any_event 0
             [EvNumber "2"; EvOperation "+"; EvNumber "3"] initialState);
      [constructor|reflexivity|vm_compute; reflexivity]. }
  destruct (pending_operation_invariant nanMath _ Hr) as [H1 H2].
  split; [exact H1|].
  apply (H2 EvEquals 0); reflexivity.
Defined.

(* ================================================================== *)
(** * The emotion of a result *)

Lemma eq_finite (x : number) (s : bool) (m : positive) (e : Z) :
  eq x (S754_finite s m e) = true -> x = S754_finite s m e.
Proof.
  unfold eq, SFeqb. destruct x as [sx|sx| |sx mx ex]; simpl.
  - destruct s; discriminate.
  - destruct sx; discriminate.
  - discriminate.
  - destruct sx, s; try discriminate;
      destruct (Z.compare ex e) eqn:He; try discriminate;
      apply Z.compare_eq in He; subst ex;
      destruct (Pos.compare_cont Eq mx m) eqn:Hm; try discriminate;
      apply Pos.compare_eq in Hm; subst mx; reflexivity.
Qed.

Example getEmotion_examples :
  getEmotion (parseFloat "1500") = excited
  /\ getEmotion (parseFloat "1000.5") = excited
  /\ getEmotion (parseFloat "1000") = happy
  /\ getEmotion (parseFloat "100.5") = happy
  /\ getEmotion (parseFloat "100") = neutral
  /\ getEmotion (parseFloat "0") = neutral
  /\ getEmotion (parseFloat "-0.5") = sad
  /\ getEmotion NaN = neutral.
Proof. vm_compute. repeat split. Qed.

(** C1 as stated fails: 999 + 1 evaluates to exactly 1000 and the emotion
    is happy, not neutral. *)
Lemma boundary_1000_counterexample :
  exists st,
    run nanMath 0 (type_digits "999" ++ [EvOperation "+"] ++ type_digits "1")
      initialState = Some st
    /\ calculate_result st = Some (of_Z 1000)
    /\ display (calculate st) = "1,000"
    /\ emotion (calculate st) = happy
    /\ emotion (calculate st) <> neutral.
Proof.
  eexists. split; [vm_compute; reflexivity|].
  repeat split; try (vm_compute; reflexivity).
  vm_compute. discriminate.
Qed.

(** C1, amended: when [calculate] evaluates to exactly 1000 the emotion
    is happy (1000 is not above 1000 but is above 100), and when it
    evaluates to exactly 100 the emotion is neutral; both comparisons are
    strict. *)
Theorem boundary_emotion (st : CalculatorState) (result : number) :
  calculate_result st = Some result ->
  (eq result (of_Z 1000) = true -> emotion (calculate st) = happy)
  /\ (eq result (of_Z 100) = true -> emotion (calculate st) = neutral).
Proof.
  intros Hres. unfold calculate. rewrite Hres. simpl emotion.
  split; intros H; apply eq_finite in H; subst result; vm_compute; reflexivity.
Qed.

Lemma boundary_emotion_witness :
  calculate_result
    (with_pending "999" (Some "+") (with_display "1" initialState))
  = Some (of_Z 1000)
  /\ emotion
       (calculate (with_pending "999" (Some "+") (with_display "1" initialState)))
     = happy.
Proof.
  assert (H : calculate_result
                (with_pending "999" (Some "+") (with_display "1" initialState))
              = Some (of_Z 1000)) by (vm_compute; reflexivity).
  split; [exact H|].
  apply (boundary_emotion _ _ H). vm_compute. reflexivity.
Defined.

(* ================================================================== *)
(** * Factorial *)

Lemma factorial_step (fuel : nat) (n : number) :
  stops n = false ->
  factorial (S fuel) n = option_map (mul n) (factorial fuel (sub n (of_Z 1))).
Proof.
  unfold stops. intros H. apply orb_false_elim in H as [H0 H1].
  cbn [factorial]. now rewrite H0, H1.
Qed.

Lemma factorial_stop (fuel : nat) (n : number) :
  stops n = true -> exists r, factorial (S fuel) n = Some r.
Proof.
  unfold stops. intros H. cbn [factorial].
  destruct (lt n (of_Z 0)); [now eexists|].
  cbn [orb] in H. rewrite H. now eexists.
Qed.

Lemma factorial_returns_stops (fuel : nat) (n r : number) :
  factorial fuel n = Some r -> exists k, stops (countdown k n) = true.
Proof.
  revert n r. induction fuel as [|fuel IH]; intros n r H; [discriminate|].
  destruct (stops n) eqn:Hs; [now exists 0|].
  rewrite (factorial_step fuel n Hs) in H.
  destruct (factorial fuel (sub n (of_Z 1))) as [r'|] eqn:Hr; [|discriminate].
  destruct (IH _ _ Hr) as [k Hk]. now exists (S k).
Qed.

Lemma factorial_stops_returns (k : nat) (n : number) :
  stops (countdown k n) = true -> exists r, factorial (S k) n = Some r.
Proof.
  revert n. induction k as [|k IH]; intros n H.
  - now apply factorial_stop.
  - destruct (stops n) eqn:Hs; [now apply factorial_stop|].
    rewrite (factorial_step (S k) n Hs).
    destruct (IH _ H) as [r Hr]. rewrite Hr. now eexists.
Qed.

(** Where subtracting one changes nothing and no guard fires, the
    recursion never returns. *)
Lemma factorial_stuck (n : number) :
  stops n = false -> sub n (of_Z 1) = n -> forall fuel, factorial fuel n = None.
Proof.
  intros Hs Hfix fuel. induction fuel as [|fuel IH]; [reflexivity|].
  rewrite (factorial_step fuel n Hs), Hfix, IH. reflexivity.
Qed.

Lemma factorial_returns_iff (n : number) :
  (exists fuel r, factorial fuel n = Some r)
  <-> (exists k, stops (countdown k n) = true).
Proof.
  split.
  - intros (fuel & r & H). exact (factorial_returns_stops fuel n r H).
  - intros (k & H). exists (S k). exact (factorial_stops_returns k n H).
Qed.

(** ** Subtracting one is exact below [2^52] *)

Section ExactSubtraction.

Local Open Scope Z_scope.













Lemma of_Z_0 : of_Z 0 = S754_zero false.
Proof. vm_compute. reflexivity. Qed.











End ExactSubtraction.

Example factorial_examples :
  factorial 1 (of_Z 0) = Some (of_Z 1)
  /\ factorial 1 (of_Z 1) = Some (of_Z 1)
  /\ factorial 5 (of_Z 5) = Some (of_Z 120)
  /\ factorial 1 (of_Z (-3)) = Some NaN
  /\ factorial 4 PI = Some (parseFloat "7.680648784211329")
  /\ factorial 1000 (parseFloat "Error") = None
  /\ factorial 1000 (of_Z (2 ^ 54)) = None.
Proof. vm_compute. repeat split. Qed.




(* ================================================================== *)
(** * Percent *)

(** In a well-formed state the test [previousValue && operation] of
    [handlePercent] succeeds exactly when an operator is stored. *)
Lemma pending_spec (st : CalculatorState) :
  well_formed st ->
  pending st = match operation st with Some _ => true | None => false end.
Proof.
  intros (_ & Hp & Hk). unfold pending, pending_consistent in *.
  destruct (operation st) as [op|].
  - rewrite (operator_key_truthy op (Hk op eq_refl)).
    destruct (previousValue st); [|reflexivity].
    exfalso. apply (proj1 Hp); [discriminate|reflexivity].
  - apply andb_false_r.
Qed.

(** C6: in a reachable state, percent with a pending operation sets the
    display to the formatted [previousValue * display / 100], and with no
    pending operation to the formatted [display / 100]; in both cases the
    stored operator, the stored operand and the emotion stay as they
    are. *)
Theorem percent_semantics (M : MathLib) (st : CalculatorState) :
  reachable M st ->
  let currentNum := parseFloat (unformatNumber (display st)) in
  let base := parseFloat (unformatNumber (previousValue st)) in
  display (handlePercent st)
  = formatNumber (toString
      match operation st with
      | Some _ => div (mul base currentNum) (of_Z 100)
      | None => div currentNum (of_Z 100)
      end)
  /\ operation (handlePercent st) = operation st
  /\ previousValue (handlePercent st) = previousValue st
  /\ emotion (handlePercent st) = emotion st.
Proof.
  intros Hr currentNum base.
  pose proof (pending_spec st (reachable_well_formed _ _ _ Hr)) as Hp.
  unfold handlePercent. rewrite Hp.
  destruct (operation st) eqn:Hop; repeat split; exact Hop.
Qed.

Lemma percent_semantics_witness :
  exists st,
    run nanMath 0 (type_digits "50" ++ [EvOperation "×"] ++ type_digits "10")
      initialState = Some st
    /\ previousValue st = "50" /\ display st = "10"
    /\ display (handlePercent st) = "5"
    /\ operation (handlePercent st) = Some "×".
Proof.
  eexists. split; [vm_compute; reflexivity|].
  split; [reflexivity|]. split; [reflexivity|].
  match goal with
  | |- display (handlePercent ?s) = _ /\ _ => assert (Hr : reachable nanMath s)
  end.
  { apply (run_reachable nanMath any_event 0
             (type_digits "50" ++ [EvOperation "×"] ++ type_digits "10")
             initialState);
      [constructor|reflexivity|vm_compute; reflexivity]. }
  destruct (percent_semantics nanMath _ Hr) as (Hd & Ho & _).
  split.
  - rewrite Hd. vm_compute. reflexivity.
  - rewrite Ho. reflexivity.
Defined.

(* ================================================================== *)
(** * Scientific functions: the error display *)

(** C7: whenever the value computed by a scientific function is NaN or
    not finite, [handleScientific] returns a state whose display is
    ["Error"] and whose emotion is sad. *)
Theorem scientific_error_display (M : MathLib) (fuel : nat) (func : string)
  (st : CalculatorState) (result : number) :
  apply_function M fuel (angleUnit st) func
    (parseFloat (unformatNumber (display st))) = Some (Some result) ->
  isNaN result || negb (isFinite result) = true ->
  exists st',
    handleScientific M fuel func st = Some st'
    /\ display st' = "Error"
    /\ emotion st' = sad.
Proof.
  intros Hf Herr. unfold handleScientific. rewrite Hf.
  eexists. split; [reflexivity|].
  unfold scientific_state. rewrite Herr. split; reflexivity.
Qed.

Lemma scientific_error_display_witness :
  sqrt (parseFloat "-4") = NaN
  /\ exists st',
       handleScientific nanMath 0 "sqrt"
         (toggleMode (with_display "-4" initialState)) = Some st'
       /\ display st' = "Error"
       /\ emotion st' = sad.
Proof.
  split; [vm_compute; reflexivity|].
  apply (scientific_error_display nanMath 0 "sqrt" _ NaN); vm_compute; reflexivity.
Defined.

(** C10: whenever the value computed by a scientific function is NaN or
    not finite, the state that [handleScientific] returns has the stored
    operand, the stored operator, the mode, the angle unit and the memory
    of the state before. *)
Theorem scientific_error_frame (M : MathLib) (fuel : nat) (func : string)
  (st : CalculatorState) (result : number) :
  apply_function M fuel (angleUnit st) func
    (parseFloat (unformatNumber (display st))) = Some (Some result) ->
  isNaN result || negb (isFinite result) = true ->
  exists st',
    handleScientific M fuel func st = Some st'
    /\ previousValue st' = previousValue st
    /\ operation st' = operation st
    /\ mode st' = mode st
    /\ angleUnit st' = angleUnit st
    /\ memory st' = memory st.
Proof.
  intros Hf Herr. unfold handleScientific. rewrite Hf.
  eexists. split; [reflexivity|].
  unfold scientific_state. rewrite Herr. repeat split.
Qed.

Lemma scientific_error_frame_witness :
  exists st',
    handleScientific nanMath 0 "inv"
      (handleOperation "+" (toggleMode (with_display "5" initialState)))
    = Some st'
    /\ display st' = "Error"
    /\ previousValue st' = "5"
    /\ operation st' = Some "+"
    /\ mode st' = scientific.
Proof.
  destruct (scientific_error_frame nanMath 0 "inv"
              (handleOperation "+" (toggleMode (with_display "5" initialState)))
              Infinity)
    as (st' & Hs & Hp & Ho & Hm & _); try (vm_compute; reflexivity).
  exists st'. split; [exact Hs|].
  split; [vm_compute in Hs; injection Hs as <-; reflexivity|].
  split; [rewrite Hp; reflexivity|].
  split; [rewrite Ho; reflexivity|rewrite Hm; reflexivity].
Defined.

(* ================================================================== *)
(** * Division by zero *)

Lemma div_by_zero (x z : number) :
  is_zero z = true ->
  div x z = NaN \/ div x z = Infinity \/ div x z = S754_infinity true.
Proof.
  destruct z as [sz| | |]; try discriminate. intros _.
  destruct x as [sx|sx| |sx mx ex]; unfold div, SFdiv; auto;
    destruct (xorb sx sz); auto.
Qed.

(** C8: when the stored operator is the division sign and the display
    reads as zero, [calculate] evaluates to NaN or to an infinity, shows
    that value as the number prints (["NaN"], ["Infinity"] or
    ["-Infinity"]) through the usual [formatNumber (toString result)],
    and the display is not ["Error"]. *)
Theorem divide_by_zero_propagates (st : CalculatorState) :
  operation st = Some "÷" ->
  is_zero (parseFloat (unformatNumber (display st))) = true ->
  let quotient :=
    div (parseFloat (unformatNumber (previousValue st)))
        (parseFloat (unformatNumber (display st))) in
  calculate_result st = Some quotient
  /\ isNaN quotient || negb (isFinite quotient) = true
  /\ display (calculate st) = formatNumber (toString quotient)
  /\ display (calculate st) = toString quotient
  /\ display (calculate st) <> "Error".
Proof.
  intros Hop Hz quotient.
  assert (Hres : calculate_result st = Some quotient).
  { unfold calculate_result. rewrite Hop.
    change (apply_operation (Some "÷")
              (parseFloat (unformatNumber (previousValue st)))
              (parseFloat (unformatNumber (display st))))
      with (Some quotient).
    cbn [option_map]. f_equal.
    destruct (div_by_zero (parseFloat (unformatNumber (previousValue st))) _ Hz)
      as [H|[H|H]]; fold quotient in H; rewrite H; reflexivity. }
  unfold calculate. rewrite Hres. cbn [display with_emotion with_pending with_display].
  split; [reflexivity|].
  destruct (div_by_zero (parseFloat (unformatNumber (previousValue st))) _ Hz)
    as [H|[H|H]]; fold quotient in H; rewrite H;
    (split; [reflexivity|]); (split; [reflexivity|]);
    (split; [reflexivity|discriminate]).
Qed.

Lemma divide_by_zero_propagates_witness :
  calculate_result (with_pending "5" (Some "÷") initialState) = Some Infinity
  /\ display (calculate (with_pending "5" (Some "÷") initialState)) = "Infinity"
  /\ display (calculate (with_pending "5" (Some "÷") initialState)) <> "Error".
Proof.
  destruct (divide_by_zero_propagates
              (with_pending "5" (Some "÷") initialState))
    as (Hr & _ & _ & Hd & Hne); try (vm_compute; reflexivity).
  split; [rewrite Hr; vm_compute; reflexivity|].
  split; [rewrite Hd; vm_compute; reflexivity|exact Hne].
Defined.

(* ================================================================== *)
(** * Grouping: how [formatNumber] places the separators *)

Lemma digit_not_dot (c : ascii) : is_digit c = true -> is_dot c = false.
Proof.
  intros H. destruct (is_dot c) eqn:E; [|reflexivity].
  apply Ascii.eqb_eq in E; subst c. discriminate H.
Qed.

Lemma digit_is_word (c : ascii) : is_digit c = true -> is_word c = true.
Proof. intros H. unfold is_word. now rewrite H. Qed.

Lemma all_digits_app (s t : string) :
  all_digits (s ++ t) = all_digits s && all_digits t.
Proof.
  induction s as [|c s IH]; simpl; [reflexivity|].
  now rewrite IH, andb_assoc.
Qed.

Lemma all_digits_plain (s : string) :
  all_digits s = true -> has_comma s = false /\ count_dots s = 0.
Proof.
  induction s as [|c s IH]; simpl; [auto|]. intros H.
  apply andb_prop in H as [Hc Hs]. destruct (IH Hs) as [H1 H2].
  now rewrite (digit_not_comma c Hc), (digit_not_dot c Hc), H1, H2.
Qed.

Lemma no_dot_split (s : string) :
  count_dots s = 0 -> formatNumber s = group_thousands s.
Proof.
  intros H. unfold formatNumber, split_dot.
  destruct (before_dot_no_dot s H) as [-> ->]. reflexivity.
Qed.

Lemma digit_run_app (a b : string) :
  all_digits a = true -> digit_run (a ++ b) = String.length a + digit_run b.
Proof.
  induction a as [|c a IH]; simpl; [reflexivity|]. intros H.
  apply andb_prop in H as [Hc Ha]. now rewrite Hc, IH.
Qed.

Lemma digit_run_all (s : string) :
  all_digits s = true -> digit_run s = String.length s.
Proof.
  induction s as [|c s IH]; simpl; [reflexivity|]. intros H.
  apply andb_prop in H as [Hc Hs]. now rewrite Hc, IH.
Qed.

(** Up to two digits are never followed by a separator. *)
Lemma group_from_short (prev : option ascii) (s : string) :
  all_digits s = true -> String.length s <= 2 -> group_from prev s = s.
Proof.
  revert prev. induction s as [|c s IH]; intros prev Hd Hl.
  - simpl. unfold separator_here, groups_ahead. simpl. now rewrite andb_false_r.
  - cbn [group_from]. unfold separator_here, groups_ahead.
    rewrite (digit_run_all _ Hd).
    simpl in Hd. apply andb_prop in Hd as [_ Hs]. simpl in Hl.
    rewrite (IH (Some c) Hs) by lia.
    replace ((String.length (String c s) mod 3 =? 0)%nat) with false.
    + destruct (non_boundary prev (String c s)),
        (0 <? String.length (String c s))%nat; reflexivity.
    + simpl String.length. destruct s as [|d [|d' s']]; simpl in *; try reflexivity; lia.
Qed.

(** Three digits get a separator in front exactly after a word character. *)
Lemma group_from_three (prev : option ascii) (b : string) :
  all_digits b = true -> String.length b = 3 ->
  group_from prev b = if word_at prev then String "," b else b.
Proof.
  intros Hd Hl. destruct b as [|c b]; [discriminate|].
  cbn [group_from]. unfold separator_here, groups_ahead, non_boundary.
  rewrite (digit_run_all _ Hd), Hl.
  simpl in Hd. apply andb_prop in Hd as [Hc Hb].
  simpl in Hl. rewrite (group_from_short (Some c) b Hb) by lia.
  cbn [head_char word_at]. rewrite (digit_is_word c Hc).
  destruct (word_at prev); reflexivity.
Qed.

Lemma group_from_app3 (a b : string) (prev : option ascii) :
  all_digits a = true -> a <> "" ->
  all_digits b = true -> String.length b = 3 ->
  group_from prev (a ++ b) = group_from prev a ++ String "," b.
Proof.
  revert prev. induction a as [|c a IH]; intros prev Ha Hne Hb Hl; [congruence|].
  simpl in Ha. apply andb_prop in Ha as [Hc Ha].
  change (String c a ++ b) with (String c (a ++ b)).
  cbn [group_from].
  assert (Hsep : separator_here prev (String c (a ++ b))
                 = separator_here prev (String c a)).
  { unfold separator_here, non_boundary, groups_ahead. cbn [head_char].
    f_equal. cbn [digit_run]. rewrite Hc.
    rewrite (digit_run_app a b Ha), (digit_run_all b Hb), (digit_run_all a Ha), Hl.
    replace (S (String.length a + 3)) with (S (String.length a) + 1 * 3) by lia.
    now rewrite Nat.Div0.mod_add. }
  rewrite Hsep.
  assert (Hrest : group_from (Some c) (a ++ b)
                  = group_from (Some c) a ++ String "," b).
  { destruct a as [|d a'].
    - simpl append. rewrite (group_from_three (Some c) b Hb Hl).
      cbn [word_at]. rewrite (digit_is_word c Hc).
      simpl. unfold separator_here, groups_ahead. simpl.
      now destruct (non_boundary (Some c) "").
    - apply IH; [assumption|discriminate|assumption|assumption]. }
  rewrite Hrest. destruct (separator_here prev (String c a)); reflexivity.
Qed.

(** X1: a string of up to three digits is formatted as itself, and
    appending three digits to a non-empty string of digits appends one
    separator and those three digits to its formatted form: the
    separators stand before every group of three counted from the
    right. *)
Theorem grouping_by_threes :
  (forall s, all_digits s = true -> String.length s <= 3 -> formatNumber s = s)
  /\ (forall a b,
         all_digits a = true -> a <> "" ->
         all_digits b = true -> String.length b = 3 ->
         formatNumber (a ++ b) = formatNumber a ++ String "," b).
Proof.
  split.
  - intros s Hd Hl. rewrite no_dot_split by now apply all_digits_plain.
    unfold group_thousands.
    destruct (Nat.eq_dec (String.length s) 3) as [H3|H3].
    + now rewrite (group_from_three None s Hd H3).
    + apply group_from_short; [assumption|lia].
  - intros a b Ha Hne Hb Hl.
    rewrite !no_dot_split.
    + now apply group_from_app3.
    + now apply all_digits_plain.
    + apply all_digits_plain. rewrite all_digits_app, Ha, Hb. reflexivity.
Qed.

Lemma grouping_by_threes_witness :
  formatNumber "999" = "999"
  /\ formatNumber ("1234" ++ "567") = formatNumber "1234" ++ ",567"
  /\ formatNumber "1234567" = "1,234,567".
Proof.
  destruct grouping_by_threes as [H1 H2].
  split; [apply H1; [reflexivity|simpl; lia]|].
  split; [apply H2; [reflexivity|discriminate|reflexivity|reflexivity]|].
  reflexivity.
Defined.

Lemma group_from_nonword (prev : option ascii) (s : string) :
  word_at prev = false -> group_from prev s = group_from None s.
Proof.
  intros H. destruct s as [|c s]; cbn [group_from];
    unfold separator_here, non_boundary; rewrite H; reflexivity.
Qed.

(** X2: a leading minus sign stays in front and the rest is formatted as
    it would be without the sign; no separator is ever placed right after
    the sign. *)
Theorem format_minus_sign (s : string) :
  formatNumber (String "-" s) = String "-" (formatNumber s).
Proof.
  unfold formatNumber, split_dot, group_thousands.
  change (before_dot (String "-" s)) with (String "-" (before_dot s)).
  change (after_dot (String "-" s)) with (after_dot s).
  assert (H : group_from None (String "-" (before_dot s))
              = String "-" (group_from None (before_dot s))).
  { cbn [group_from].
    replace (separator_here None (String "-" (before_dot s))) with false
      by (unfold separator_here, groups_ahead; simpl;
          now destruct (non_boundary None (String "-" (before_dot s)))).
    f_equal. now apply group_from_nonword. }
  rewrite H. destruct (after_dot s) as [r|]; [|reflexivity].
  destruct (before_dot r); reflexivity.
Qed.

Lemma before_dot_app (a t : string) :
  count_dots a = 0 -> before_dot (a ++ String "." t) = a.
Proof.
  induction a as [|c a IH]; simpl; [reflexivity|].
  destruct (is_dot c); simpl; [discriminate|]. intros H. now rewrite IH.
Qed.

Lemma after_dot_app (a t : string) :
  count_dots a = 0 -> after_dot (a ++ String "." t) = Some t.
Proof.
  induction a as [|c a IH]; simpl; [reflexivity|].
  destruct (is_dot c); simpl; [discriminate|]. intros H. now rewrite IH.
Qed.

(** X3: the text after the decimal point is left as it is, only the text
    before it is grouped; a second decimal point and everything after it
    are dropped. *)
Theorem format_fraction (a b : string) :
  count_dots a = 0 -> count_dots b = 0 ->
  formatNumber (a ++ String "." b) = formatNumber a ++ String "." b
  /\ (forall c,
         formatNumber (a ++ String "." (b ++ String "." c))
         = formatNumber (a ++ String "." b)).
Proof.
  intros Ha Hb.
  assert (H : forall t, before_dot t = b ->
                        formatNumber (a ++ String "." t)
                        = formatNumber a ++ String "." b).
  { intros t Ht. unfold formatNumber at 1. unfold split_dot.
    rewrite before_dot_app, after_dot_app, Ht by assumption.
    now rewrite (no_dot_split a Ha). }
  split.
  - apply H. now destruct (before_dot_no_dot b Hb).
  - intros c. rewrite (H (b ++ String "." c)) by now apply before_dot_app.
    symmetry. apply H. now destruct (before_dot_no_dot b Hb).
Qed.

Lemma format_fraction_witness :
  formatNumber ("1234" ++ String "." "5678") = "1,234.5678"
  /\ formatNumber ("1234" ++ String "." ("5" ++ String "." "678")) = "1,234.5".
Proof.
  destruct (format_fraction "1234" "5678") as [H _]; try reflexivity.
  destruct (format_fraction "1234" "5") as [H1 H2]; try reflexivity.
  split; [rewrite H; reflexivity|].
  rewrite H2, H1. reflexivity.
Defined.

(* ================================================================== *)
(** * The characters of a display *)

Section Characters.

Variable P : ascii -> bool.

Lemma all_chars_app (s t : string) :
  all_chars P (s ++ t) = all_chars P s && all_chars P t.
Proof.
  induction s as [|c s IH]; simpl; [reflexivity|].
  now rewrite IH, andb_assoc.
Qed.

Lemma all_chars_substring (i j : nat) (s : string) :
  all_chars P s = true -> all_chars P (substring i j s) = true.
Proof.
  revert i j. induction s as [|c s IH]; intros i j H.
  - destruct i, j; reflexivity.
  - simpl in H. apply andb_prop in H as [Hc Hs].
    destruct i as [|i]; simpl.
    + destruct j as [|j]; [reflexivity|]. simpl. now rewrite Hc, IH.
    + now apply IH.
Qed.

Lemma all_chars_unformat (s : string) :
  all_chars P s = true -> all_chars P (unformatNumber s) = true.
Proof.
  induction s as [|c s IH]; simpl; [reflexivity|]. intros H.
  apply andb_prop in H as [Hc Hs].
  destruct (is_comma c); simpl; [auto|]. now rewrite Hc, IH.
Qed.

Lemma all_chars_before_dot (s : string) :
  all_chars P s = true -> all_chars P (before_dot s) = true.
Proof.
  induction s as [|c s IH]; simpl; [reflexivity|]. intros H.
  apply andb_prop in H as [Hc Hs].
  destruct (is_dot c); simpl; [reflexivity|]. now rewrite Hc, IH.
Qed.

Lemma all_chars_after_dot (s r : string) :
  all_chars P s = true -> after_dot s = Some r -> all_chars P r = true.
Proof.
  induction s as [|c s IH]; simpl; [discriminate|]. intros H.
  apply andb_prop in H as [Hc Hs].
  destruct (is_dot c); [now intros [= <-]|now apply IH].
Qed.

Lemma all_chars_slice_init (s : string) :
  all_chars P s = true -> all_chars P (slice_init s) = true.
Proof.
  induction s as [|c s IH]; [reflexivity|]. intros H.
  simpl in H. apply andb_prop in H as [Hc Hs].
  destruct s as [|d s]; [reflexivity|].
  change (slice_init (String c (String d s)))
    with (String c (slice_init (String d s))).
  simpl all_chars. rewrite Hc. now apply IH.
Qed.

Hypothesis P_comma : P ","%char = true.

Lemma all_chars_group_from (prev : option ascii) (s : string) :
  all_chars P s = true -> all_chars P (group_from prev s) = true.
Proof.
  revert prev. induction s as [|c s IH]; intros prev H; cbn [group_from].
  - destruct (separator_here prev ""); simpl; [now rewrite P_comma|reflexivity].
  - simpl in H. apply andb_prop in H as [Hc Hs].
    destruct (separator_here prev (String c s)); simpl;
      rewrite ?P_comma, Hc; now apply IH.
Qed.

Hypothesis P_dot : P "."%char = true.

Lemma all_chars_format (s : string) :
  all_chars P s = true -> all_chars P (formatNumber s) = true.
Proof.
  intros H. unfold formatNumber, split_dot, group_thousands.
  pose proof (all_chars_group_from None _ (all_chars_before_dot s H)) as Hi.
  destruct (after_dot s) as [r|] eqn:Er; [|exact Hi].
  rewrite all_chars_app, Hi. simpl. rewrite P_dot. simpl.
  apply all_chars_before_dot. exact (all_chars_after_dot s r H Er).
Qed.

End Characters.

Lemma all_chars_impl (P Q : ascii -> bool) (s : string) :
  (forall c, P c = true -> Q c = true) ->
  all_chars P s = true -> all_chars Q s = true.
Proof.
  intros HPQ. induction s as [|c s IH]; simpl; [reflexivity|]. intros H.
  apply andb_prop in H as [Hc Hs]. now rewrite (HPQ c Hc), IH.
Qed.

Lemma all_chars_no_comma (P : ascii -> bool) (s : string) :
  P ","%char = false -> all_chars P s = true -> has_comma s = false.
Proof.
  intros HP. induction s as [|c s IH]; simpl; [reflexivity|]. intros H.
  apply andb_prop in H as [Hc Hs]. rewrite (IH Hs).
  destruct (is_comma c) eqn:E; [|reflexivity].
  apply Ascii.eqb_eq in E; subst c. congruence.
Qed.

Lemma all_digits_chars (s : string) : all_digits s = all_chars is_digit s.
Proof. induction s as [|c s IH]; simpl; [reflexivity|]. now rewrite IH. Qed.

(** ** The strings of [toString] *)

Lemma uint_digits (d : Decimal.uint) :
  all_digits (NilEmpty.string_of_uint d) = true.
Proof. induction d; simpl; auto. Qed.

Lemma digits10_digits (n : N) : all_digits (digits10 n) = true.
Proof.
  unfold digits10, NilZero.string_of_uint.
  destruct (N.to_uint n) eqn:E; try reflexivity; rewrite <- E; apply uint_digits.
Qed.

Lemma zeros_digits (k : nat) : all_digits (zeros k) = true.
Proof. induction k; simpl; auto. Qed.

Lemma digit_number_char (c : ascii) : is_digit c = true -> number_char c = true.
Proof. intros H. unfold number_char. now rewrite H. Qed.

Lemma digits_number_chars (s : string) :
  all_digits s = true -> all_chars number_char s = true.
Proof.
  rewrite all_digits_chars. apply all_chars_impl, digit_number_char.
Qed.

Lemma exponent_suffix_chars (e : Z) :
  all_chars number_char (exponent_suffix e) = true
  /\ count_dots (exponent_suffix e) = 0.
Proof.
  unfold exponent_suffix.
  pose proof (digits10_digits (Z.abs_N e)) as Hd.
  destruct (all_digits_plain _ Hd) as [_ Hn].
  apply digits_number_chars in Hd.
  destruct (e <? 0)%Z; simpl; rewrite Hd, Hn; auto.
Qed.

Lemma count_dots_substring_digits (i j : nat) (s : string) :
  all_digits s = true -> count_dots (substring i j s) = 0.
Proof.
  intros H. apply all_digits_plain.
  rewrite all_digits_chars in *. now apply all_chars_substring.
Qed.

Lemma render_chars (ds : string) (n : Z) :
  all_digits ds = true ->
  all_chars number_char (render ds n) = true /\ count_dots (render ds n) <= 1.
Proof.
  intros Hd. pose proof (digits_number_chars ds Hd) as Hc.
  destruct (all_digits_plain ds Hd) as [_ Hn].
  destruct (exponent_suffix_chars (n - 1)) as [He1 He2].
  unfold render.
  destruct ((Z.of_nat (String.length ds) <=? n)%Z && (n <=? 21)%Z).
  { pose proof (zeros_digits (Z.to_nat (n - Z.of_nat (String.length ds)))) as Hz.
    destruct (all_digits_plain _ Hz) as [_ Hzn].
    rewrite all_chars_app, count_dots_app, Hc, Hn, Hzn.
    split; [now apply digits_number_chars|lia]. }
  destruct ((0 <? n)%Z && (n <=? 21)%Z).
  { rewrite all_chars_app, count_dots_app. simpl.
    rewrite !count_dots_substring_digits by assumption.
    rewrite !all_chars_substring by assumption. simpl.
    split; [reflexivity|lia]. }
  destruct ((-6 <? n)%Z && (n <=? 0)%Z).
  { pose proof (zeros_digits (Z.to_nat (- n))) as Hz.
    destruct (all_digits_plain _ Hz) as [_ Hzn].
    apply digits_number_chars in Hz.
    simpl. rewrite all_chars_app, count_dots_app, Hz, Hc, Hzn, Hn.
    split; [reflexivity|lia]. }
  destruct ds as [|d [|d' r]].
  - split; [exact He1|lia].
  - simpl in Hc, Hn. apply andb_prop in Hc as [Hc _].
    cbn [all_chars count_dots]. rewrite Hc, He1, He2.
    split; [reflexivity|]. destruct (is_dot d); simpl in *; lia.
  - remember (String d' r) as t eqn:Et.
    simpl in Hc, Hn. apply andb_prop in Hc as [Hc0 Hc1].
    assert (Hd0 : is_dot d = false) by (destruct (is_dot d); [discriminate|reflexivity]).
    rewrite Hd0 in Hn. simpl in Hn.
    change (String d ("." ++ t ++ exponent_suffix (n - 1)))
      with (String d (String "." (t ++ exponent_suffix (n - 1)))).
    cbn [all_chars count_dots].
    rewrite all_chars_app, count_dots_app, Hc0, Hc1, He1, Hd0, Hn, He2.
    split; [reflexivity|]. simpl. lia.
Qed.

Lemma toString_chars (x : number) :
  all_chars number_char (toString x) = true /\ count_dots (toString x) <= 1.
Proof.
  destruct x as [s|s| |s m e]; simpl.
  - split; [reflexivity|lia].
  - destruct s; split; try reflexivity; simpl; lia.
  - split; [reflexivity|simpl; lia].
  - assert (Hds : all_digits (fst (shortest_digits m e)) = true).
    { unfold shortest_digits.
      destruct (fraction_of m e) as [num den].
      destruct (shortest_from 16 m e (decimal_exponent num den) 1) as [z n].
      apply digits10_digits. }
    destruct (shortest_digits m e) as [ds n]. simpl in Hds.
    destruct (render_chars ds n Hds) as [H1 H2].
    destruct s; simpl; rewrite ?H1; split; auto.
Qed.

(** What [toString] produces can be formatted and unformatted without loss. *)
Lemma toString_valid (x : number) : unformatted_valid (toString x) = true.
Proof.
  destruct (toString_chars x) as [Hc Hn]. unfold unformatted_valid.
  rewrite (all_chars_no_comma number_char _ eq_refl Hc). simpl.
  now apply Nat.leb_le.
Qed.

(* ================================================================== *)
(** * Invariants of the display and of the memory *)

Lemma valid_iff (s : string) :
  unformatted_valid s = true <-> has_comma s = false /\ count_dots s <= 1.
Proof.
  unfold unformatted_valid. rewrite andb_true_iff, negb_true_iff, Nat.leb_le.
  reflexivity.
Qed.

Lemma unformat_format_valid (s : string) :
  unformatted_valid s = true -> unformatNumber (formatNumber s) = s.
Proof.
  intros H. apply valid_iff in H as [Hc Hd].
  rewrite unformat_format.
  rewrite (unformat_no_comma (before_dot s)) by now apply has_comma_before_dot.
  rewrite <- (split_rejoin s Hd) at 3.
  destruct (after_dot s) as [r|] eqn:Er; [|reflexivity].
  rewrite (unformat_no_comma (before_dot r)); [reflexivity|].
  apply has_comma_before_dot. now apply (has_comma_after_dot s).
Qed.

(** The display built from a valid string is consistent. *)
Lemma format_consistent (x : string) (st : CalculatorState) :
  unformatted_valid x = true ->
  display st = formatNumber x ->
  consistent_display st.
Proof.
  intros Hx Hd. unfold consistent_display.
  rewrite Hd, (unformat_format_valid x Hx). now split.
Qed.

Lemma unformat_valid_app_digit (u num : string) :
  unformatted_valid u = true ->
  mem_string num digit_keys = true ->
  unformatted_valid (u ++ num) = true.
Proof.
  intros Hu Hk. apply valid_iff in Hu as [Hc Hd]. apply valid_iff.
  assert (Hn : has_comma num = false /\ count_dots num = 0).
  { unfold mem_string, digit_keys in Hk. simpl in Hk.
    repeat (apply orb_prop in Hk as [Hk|Hk];
            [apply String.eqb_eq in Hk; subst num; split; reflexivity|]).
    discriminate Hk. }
  destruct Hn as [Hn1 Hn2].
  rewrite has_comma_app, count_dots_app, Hc, Hn1, Hn2. split; [reflexivity|lia].
Qed.

Lemma digit_key_valid (num : string) :
  mem_string num digit_keys = true -> unformatted_valid num = true.
Proof. intros H. now apply (unformat_valid_app_digit "" num). Qed.

Lemma no_dot_count (u : string) : includes_dot u = false -> count_dots u = 0.
Proof.
  induction u as [|c u IH]; simpl; [reflexivity|].
  destruct (is_dot c); simpl; [discriminate|assumption].
Qed.

Lemma slice_init_plain (u : string) :
  (has_comma u = false -> has_comma (slice_init u) = false)
  /\ count_dots (slice_init u) <= count_dots u.
Proof.
  induction u as [|c u IH]; [simpl; auto|].
  destruct u as [|d u]; [simpl; split; [reflexivity|lia]|].
  change (slice_init (String c (String d u)))
    with (String c (slice_init (String d u))).
  remember (String d u) as x eqn:Ex. clear Ex.
  cbn [has_comma count_dots]. destruct IH as [I1 I2]. split.
  - intros Hc. apply orb_false_elim in Hc as [Hc1 Hc2].
    now rewrite Hc1, I1.
  - lia.
Qed.

Lemma slice_init_valid (u : string) :
  unformatted_valid u = true -> unformatted_valid (slice_init u) = true.
Proof.
  intros H. apply valid_iff in H as [Hc Hd]. apply valid_iff.
  destruct (slice_init_plain u) as [H1 H2]. split; [auto|lia].
Qed.

Lemma unformat_valid_of_consistent (st : CalculatorState) :
  consistent_display st -> unformatted_valid (unformatNumber (display st)) = true.
Proof. now intros [H _]. Qed.

Lemma step_consistent (M : MathLib) (fuel : nat) (ev : Event)
  (st st' : CalculatorState) :
  consistent_display st ->
  enabled ev st = true ->
  step M fuel ev st = Some st' ->
  consistent_display st'.
Proof.
  intros Hc He Hs. pose proof (unformat_valid_of_consistent st Hc) as Hu.
  destruct ev; simpl in Hs.
  - injection Hs as <-. unfold handleNumber. simpl in He.
    destruct (MAX_DIGITS <=? String.length (unformatNumber (display st)))%nat;
      [assumption|].
    destruct (String.eqb (display st) "0").
    + apply (format_consistent num); [now apply digit_key_valid|reflexivity].
    + apply (format_consistent (unformatNumber (display st) ++ num));
        [now apply unformat_valid_app_digit|reflexivity].
  - injection Hs as <-. unfold handleDecimal.
    destruct (includes_dot (unformatNumber (display st))) eqn:Hdot; [assumption|].
    apply (format_consistent (unformatNumber (display st) ++ ".")); [|reflexivity].
    apply valid_iff in Hu as [H1 _]. apply valid_iff.
    rewrite has_comma_app, count_dots_app, H1, (no_dot_count _ Hdot).
    split; [reflexivity|simpl; lia].
  - injection Hs as <-.
    apply (format_consistent
             (or_else (slice_init (unformatNumber (display st))) "0"));
      [|reflexivity].
    pose proof (slice_init_valid _ Hu) as Hv.
    destruct (slice_init (unformatNumber (display st))); [reflexivity|exact Hv].
  - injection Hs as <-. now apply (format_consistent "0").
  - injection Hs as <-. unfold calculate.
    destruct (calculate_result st) as [r|]; [|assumption].
    apply (format_consistent (toString r)); [apply toString_valid|reflexivity].
  - injection Hs as <-. unfold handlePercent.
    destruct (pending st);
      eapply format_consistent; try apply toString_valid; reflexivity.
  - injection Hs as <-. now apply (format_consistent "0").
  - unfold handleScientific in Hs.
    destruct (apply_function M fuel (angleUnit st) func
                (parseFloat (unformatNumber (display st)))) as [[r|]|];
      [| |discriminate]; injection Hs as <-; [|assumption].
    unfold scientific_state.
    destruct (isNaN r || negb (isFinite r)).
    + now apply (format_consistent "Error").
    + apply (format_consistent (toString r)); [apply toString_valid|reflexivity].
  - injection Hs as <-. exact Hc.
  - injection Hs as <-. exact Hc.
Qed.

Lemma reachable_consistent (M : MathLib) (allowed : Event -> bool)
  (st : CalculatorState) :
  reachable_by M allowed st -> consistent_display st.
Proof.
  induction 1 as [|st ev fuel st' _ IH _ He Hs].
  - now apply (format_consistent "0").
  - exact (step_consistent M fuel ev st st' IH He Hs).
Qed.

(** X4: in every reachable state the display is not empty, it holds at
    most one decimal point, and it is the formatted form of what it reads
    as once its separators are removed. *)
Theorem display_consistent (M : MathLib) (st : CalculatorState) :
  reachable M st ->
  display st <> ""
  /\ formatNumber (unformatNumber (display st)) = display st
  /\ count_dots (unformatNumber (display st)) <= 1.
Proof.
  intros Hr. split; [apply (reachable_well_formed M any_event st Hr)|].
  destruct (reachable_consistent M any_event st Hr) as [Hv Hf].
  split; [exact Hf|]. now apply valid_iff in Hv.
Qed.

Lemma display_consistent_witness :
  exists st,
    run nanMath 0
      (type_digits "1234" ++ [EvDecimal] ++ type_digits "5" ++ [EvPercent])
      initialState = Some st
    /\ display st = "12.345"
    /\ formatNumber (unformatNumber (display st)) = display st.
Proof.
  eexists. split; [vm_compute; reflexivity|]. split; [reflexivity|].
  apply (display_consistent nanMath).
  apply (run_reachable nanMath any_event 0
           (type_digits "1234" ++ [EvDecimal] ++ type_digits "5" ++ [EvPercent])
           initialState);
    [constructor|reflexivity|vm_compute; reflexivity].
Defined.

Lemma step_memory (M : MathLib) (fuel : nat) (ev : Event)
  (st st' : CalculatorState) :
  step M fuel ev st = Some st' -> memory st' = memory st.
Proof.
  intros Hs. destruct ev; simpl in Hs; try (injection Hs as <-; reflexivity).
  - injection Hs as <-. unfold handleNumber.
    now destruct (MAX_DIGITS <=? String.length (unformatNumber (display st)))%nat.
  - injection Hs as <-. unfold handleDecimal.
    now destruct (includes_dot (unformatNumber (display st))).
  - injection Hs as <-. unfold calculate.
    now destruct (calculate_result st).
  - injection Hs as <-. unfold handlePercent. now destruct (pending st).
  - unfold handleScientific in Hs.
    destruct (apply_function M fuel (angleUnit st) func
                (parseFloat (unformatNumber (display st)))) as [[r|]|];
      [| |discriminate]; injection Hs as <-; [|reflexivity].
    unfold scientific_state. now destruct (isNaN r || negb (isFinite r)).
Qed.

Lemma reachable_memory (M : MathLib) (allowed : Event -> bool)
  (st : CalculatorState) :
  reachable_by M allowed st -> memory st = of_Z 0.
Proof.
  induction 1 as [|st ev fuel st' _ IH _ _ Hs]; [reflexivity|].
  now rewrite (step_memory M fuel ev st st' Hs).
Qed.

(** X5: no updater writes the [memory] field: every step leaves it as it
    is, so it is 0 in every reachable state. *)
Theorem memory_never_written (M : MathLib) (st : CalculatorState) :
  reachable M st ->
  memory st = of_Z 0
  /\ (forall ev fuel st', step M fuel ev st = Some st' -> memory st' = memory st).
Proof.
  intros Hr. split; [exact (reachable_memory M any_event st Hr)|].
  intros ev fuel st'. apply step_memory.
Qed.

Lemma memory_never_written_witness :
  exists st,
    run nanMath 0
      (type_digits "12" ++ [EvOperation "×"] ++ type_digits "3" ++ [EvEquals])
      initialState = Some st
    /\ display st = "36"
    /\ memory st = of_Z 0.
Proof.
  eexists. split; [vm_compute; reflexivity|]. split; [reflexivity|].
  apply (memory_never_written nanMath).
  apply (run_reachable nanMath any_event 0
           (type_digits "12" ++ [EvOperation "×"] ++ type_digits "3" ++ [EvEquals])
           initialState);
    [constructor|reflexivity|vm_compute; reflexivity].
Defined.

(* ================================================================== *)
(** * Where the error display comes from; the keyboard *)

Lemma number_not_E (c : ascii) : number_char c = true -> not_E c = true.
Proof.
  intros H. unfold not_E. destruct (Ascii.eqb c "E") eqn:E; [|reflexivity].
  apply Ascii.eqb_eq in E; subst c. discriminate H.
Qed.

Lemma digit_key_not_E (num : string) :
  mem_string num digit_keys = true -> all_chars not_E num = true.
Proof.
  unfold mem_string, digit_keys. simpl. intros H.
  repeat (apply orb_prop in H as [H|H];
          [apply String.eqb_eq in H; subst num; reflexivity|]).
  discriminate H.
Qed.

Lemma toString_not_E (x : number) : all_chars not_E (formatNumber (toString x)) = true.
Proof.
  apply all_chars_format; try reflexivity.
  apply (all_chars_impl number_char); [exact number_not_E|].
  apply toString_chars.
Qed.

Lemma step_not_E (M : MathLib) (fuel : nat) (ev : Event)
  (st st' : CalculatorState) :
  all_chars not_E (display st) = true ->
  basic_event ev = true ->
  enabled ev st = true ->
  step M fuel ev st = Some st' ->
  all_chars not_E (display st') = true.
Proof.
  intros Hd Hb He Hs.
  pose proof (all_chars_unformat not_E _ Hd) as Hu.
  destruct ev; simpl in Hb; try discriminate; simpl in Hs; injection Hs as <-.
  - unfold handleNumber. simpl in He.
    destruct (MAX_DIGITS <=? String.length (unformatNumber (display st)))%nat;
      [assumption|].
    cbn [display with_emotion with_display].
    apply all_chars_format; try reflexivity.
    destruct (String.eqb (display st) "0"); [now apply digit_key_not_E|].
    rewrite all_chars_app, Hu. now apply digit_key_not_E.
  - unfold handleDecimal.
    destruct (includes_dot (unformatNumber (display st))); [assumption|].
    cbn [display with_display]. apply all_chars_format; try reflexivity.
    now rewrite all_chars_app, Hu.
  - cbn [handleBackspace display with_display].
    apply all_chars_format; try reflexivity.
    pose proof (all_chars_slice_init not_E _ Hu) as Hsl.
    destruct (slice_init (unformatNumber (display st))); [reflexivity|exact Hsl].
  - reflexivity.
  - unfold calculate. destruct (calculate_result st) as [r|]; [|assumption].
    apply toString_not_E.
  - unfold handlePercent. destruct (pending st); apply toString_not_E.
  - reflexivity.
  - exact Hd.
  - exact Hd.
Qed.

Lemma basic_display_not_E (M : MathLib) (st : CalculatorState) :
  reachable_by M basic_event st -> all_chars not_E (display st) = true.
Proof.
  induction 1 as [|st ev fuel st' _ IH Ha He Hs]; [reflexivity|].
  exact (step_not_E M fuel ev st st' IH Ha He Hs).
Qed.

(** X6: as long as no scientific function is used, the display is never
    ["Error"]: arithmetic, percent and entry never produce the error
    display. *)
Theorem error_needs_scientific (M : MathLib) (st : CalculatorState) :
  reachable_by M basic_event st -> display st <> "Error".
Proof.
  intros Hr Heq. pose proof (basic_display_not_E M st Hr) as H.
  rewrite Heq in H. discriminate H.
Qed.

Lemma error_needs_scientific_witness :
  exists st,
    run nanMath 0
      ([EvOperation "÷"; EvEquals; EvToggleMode; EvBackspace]) initialState
    = Some st
    /\ display st = "Na"
    /\ display st <> "Error".
Proof.
  eexists. split; [vm_compute; reflexivity|]. split; [reflexivity|].
  apply (error_needs_scientific nanMath).
  apply (run_reachable nanMath basic_event 0
           [EvOperation "÷"; EvEquals; EvToggleMode; EvBackspace] initialState);
    [constructor|reflexivity|vm_compute; reflexivity].
Defined.

Lemma reachable_by_weaken (M : MathLib) (a b : Event -> bool)
  (st : CalculatorState) :
  (forall ev, a ev = true -> b ev = true) ->
  reachable_by M a st -> reachable_by M b st.
Proof.
  intros Hab. induction 1 as [|st ev fuel st' _ IH Ha He Hs].
  - constructor.
  - exact (reachable_step M b st ev fuel st' IH (Hab ev Ha) He Hs).
Qed.

Lemma digit_char_key (c : ascii) :
  is_digit c = true -> mem_string (String c "") digit_keys = true.
Proof.
  destruct c as [[] [] [] [] [] [] [] []]; intros H;
    try discriminate H; reflexivity.
Qed.

(** X7: a key that is held down (a repeated [keydown]) does nothing, and
    whatever a key does is an event that is enabled in every state: a
    digit, the decimal point, one of the four operators, equals,
    backspace, percent or clear. *)
Theorem keyboard_events_enabled (repeat : bool) (key : string) (ev : Event) :
  handleKeyDown repeat key = Some ev ->
  repeat = false
  /\ keyboard_event ev = true
  /\ (forall st, enabled ev st = true).
Proof.
  unfold handleKeyDown. destruct repeat; [discriminate|].
  destruct (is_digit_key key) eqn:Hd.
  { intros [= <-]. split; [reflexivity|]. split; [reflexivity|]. intros st. simpl.
    destruct key as [|c [|]]; try discriminate. now apply digit_char_key. }
  destruct (String.eqb key ".").
  { intros [= <-]. repeat split. }
  destruct (String.eqb key "+" || String.eqb key "-") eqn:Hpm.
  { intros [= <-]. split; [reflexivity|]. split; [reflexivity|]. intros st. simpl.
    apply orb_prop in Hpm as [H|H]; apply String.eqb_eq in H; subst key; reflexivity. }
  destruct (String.eqb key "*" || String.eqb key "x" || String.eqb key "X").
  { intros [= <-]. repeat split. }
  destruct (String.eqb key "/" || String.eqb key "÷").
  { intros [= <-]. repeat split. }
  destruct (String.eqb key "Enter" || String.eqb key "=").
  { intros [= <-]. repeat split. }
  destruct (String.eqb key "Backspace").
  { intros [= <-]. repeat split. }
  destruct (String.eqb key "%").
  { intros [= <-]. repeat split. }
  destruct (String.eqb key "c" || String.eqb key "C").
  { intros [= <-]. repeat split. }
  discriminate.
Qed.

Lemma keyboard_events_enabled_witness :
  handleKeyDown false "x" = Some (EvOperation "×")
  /\ enabled (EvOperation "×") initialState = true
  /\ handleKeyDown true "x" = None
  /\ handleKeyDown false "s" = None.
Proof.
  destruct (keyboard_events_enabled false "x" (EvOperation "×") eq_refl)
    as (_ & _ & H).
  split; [reflexivity|]. split; [apply H|]. split; reflexivity.
Defined.

Lemma step_keyboard_mode (M : MathLib) (fuel : nat) (ev : Event)
  (st st' : CalculatorState) :
  keyboard_event ev = true ->
  step M fuel ev st = Some st' ->
  mode st' = mode st /\ angleUnit st' = angleUnit st.
Proof.
  intros Hk Hs.
  destruct ev; simpl in Hk; try discriminate; simpl in Hs; injection Hs as <-;
    try (split; reflexivity).
  - unfold handleNumber.
    now destruct (MAX_DIGITS <=? String.length (unformatNumber (display st)))%nat.
  - unfold handleDecimal.
    now destruct (includes_dot (unformatNumber (display st))).
  - unfold calculate. now destruct (calculate_result st).
  - unfold handlePercent. now destruct (pending st).
Qed.

(** X8: in a session driven by the keyboard alone the calculator stays in
    basic mode and in degrees, never displays ["Error"], and clear brings
    it back to the initial state. *)
Theorem keyboard_session (M : MathLib) (st : CalculatorState) :
  reachable_by M keyboard_event st ->
  mode st = basic
  /\ angleUnit st = DEG
  /\ display st <> "Error"
  /\ clear st = initialState.
Proof.
  intros Hr.
  assert (Hm : mode st = basic /\ angleUnit st = DEG).
  { induction Hr as [|st ev fuel st' _ IH Ha _ Hs]; [split; reflexivity|].
    destruct (step_keyboard_mode M fuel ev st st' Ha Hs) as [-> ->]. exact IH. }
  destruct Hm as [Hm Ha]. split; [exact Hm|]. split; [exact Ha|]. split.
  - intros Heq.
    assert (H : all_chars not_E (display st) = true).
    { apply (basic_display_not_E M).
      apply (reachable_by_weaken M keyboard_event); [|exact Hr].
      intros ev. now destruct ev. }
    rewrite Heq in H. discriminate H.
  - pose proof (reachable_memory M keyboard_event st Hr) as Hmem.
    destruct st as [d pv op em mo me an]. simpl in Hm, Ha, Hmem.
    subst mo an me. reflexivity.
Qed.

Lemma keyboard_session_witness :
  exists st,
    run nanMath 0
      (type_digits "8" ++ [EvOperation "÷"] ++ type_digits "0" ++ [EvEquals])
      initialState = Some st
    /\ display st = "Infinity"
    /\ mode st = basic
    /\ clear st = initialState.
Proof.
  eexists. split; [vm_compute; reflexivity|]. split; [reflexivity|].
  match goal with
  | |- mode ?s = _ /\ _ => destruct (keyboard_session nanMath s) as (Hm & _ & _ & Hc)
  end.
  - apply (run_reachable nanMath keyboard_event 0
             (type_digits "8" ++ [EvOperation "÷"] ++ type_digits "0" ++ [EvEquals])
             initialState);
      [constructor|reflexivity|vm_compute; reflexivity].
  - split; [exact Hm|exact Hc].
Defined.

(* ================================================================== *)
(** * How the updaters compose *)

Lemma format_zero_only (p : string) :
  unformatted_valid p = true -> formatNumber p = "0" -> p = "0".
Proof.
  intros Hv Hf. rewrite <- (unformat_format_valid p Hv), Hf. reflexivity.
Qed.

Lemma append_empty (p : string) : p ++ "" = p.
Proof. induction p as [|d p IH]; simpl; [reflexivity|]. now rewrite IH. Qed.

Lemma append_assoc_char (p : string) (c : ascii) (r : string) :
  (p ++ String c "") ++ r = p ++ String c r.
Proof. induction p as [|d p IH]; simpl; [reflexivity|]. now rewrite IH. Qed.

Lemma digits_valid (s : string) :
  all_digits s = true -> unformatted_valid s = true.
Proof. intros H. apply valid_iff. destruct (all_digits_plain s H). split; [assumption|lia]. Qed.

Lemma head_nonzero_not_zero (p : string) : head_nonzero p = true -> p <> "0".
Proof. intros H ->. discriminate H. Qed.

(** Typing on: after the digits [p], the digits [r] are appended. *)
Lemma typing_more (M : MathLib) (fuel : nat) (r p : string)
  (st : CalculatorState) :
  all_digits p = true -> head_nonzero p = true ->
  display st = formatNumber p ->
  all_digits r = true ->
  String.length p + String.length r <= MAX_DIGITS ->
  exists st',
    run M fuel (type_digits r) st = Some st'
    /\ display st' = formatNumber (p ++ r)
    /\ previousValue st' = previousValue st
    /\ operation st' = operation st
    /\ (r <> "" -> emotion st' = neutral).
Proof.
  revert p st. induction r as [|c r IH]; intros p st Hp Hh Hd Hr Hl.
  - exists st. rewrite append_empty, Hd. simpl.
    repeat split; try reflexivity. congruence.
  - simpl in Hr. apply andb_prop in Hr as [Hc Hr].
    change (type_digits (String c r))
      with (EvNumber (String c "") :: type_digits r).
    cbn [run enabled step]. rewrite (digit_char_key c Hc).
    assert (Hu : unformatNumber (display st) = p)
      by (rewrite Hd; apply unformat_format_valid, digits_valid, Hp).
    assert (Hn : handleNumber (String c "") st
                 = with_emotion neutral
                     (with_display (formatNumber (p ++ String c "")) st)).
    { unfold handleNumber. rewrite Hu.
      replace (MAX_DIGITS <=? String.length p)%nat with false
        by (symmetry; apply Nat.leb_gt; simpl in Hl; lia).
      replace (String.eqb (display st) "0") with false; [reflexivity|].
      symmetry. apply String.eqb_neq. rewrite Hd. intros Hz.
      apply (head_nonzero_not_zero p Hh).
      now apply format_zero_only; [apply digits_valid|]. }
    rewrite Hn.
    destruct (IH (p ++ String c "")
                (with_emotion neutral
                   (with_display (formatNumber (p ++ String c "")) st)))
      as (st' & Hrun & Hdisp & Hpv & Hop & Hem).
    + rewrite all_digits_app, Hp. simpl. now rewrite Hc.
    + destruct p; [discriminate|exact Hh].
    + reflexivity.
    + exact Hr.
    + rewrite app_length. simpl in *. lia.
    + exists st'. split; [exact Hrun|]. rewrite <- append_assoc_char.
      split; [exact Hdisp|]. split; [exact Hpv|]. split; [exact Hop|].
      intros _. destruct r as [|d r]; [|apply Hem; discriminate].
      simpl in Hrun. injection Hrun as <-. reflexivity.
Qed.

(** X9: typing a number of at most 16 digits that does not start with a
    zero, on a display that reads ["0"], shows that number with its
    grouping separators, leaves a pending operation as it is and sets the
    emotion to neutral. *)
Theorem typing_shows_number (M : MathLib) (fuel : nat) (s : string)
  (st : CalculatorState) :
  display st = "0" ->
  all_digits s = true ->
  head_nonzero s = true ->
  String.length s <= MAX_DIGITS ->
  exists st',
    run M fuel (type_digits s) st = Some st'
    /\ display st' = formatNumber s
    /\ unformatNumber (display st') = s
    /\ previousValue st' = previousValue st
    /\ operation st' = operation st
    /\ emotion st' = neutral.
Proof.
  intros Hd Hs Hh Hl. destruct s as [|c s]; [discriminate|].
  simpl in Hs. apply andb_prop in Hs as [Hc Hs].
  change (type_digits (String c s))
    with (EvNumber (String c "") :: type_digits s).
  cbn [run enabled step]. rewrite (digit_char_key c Hc).
  assert (Hn : handleNumber (String c "") st
               = with_emotion neutral
                   (with_display (formatNumber (String c "")) st)).
  { unfold handleNumber. rewrite Hd. reflexivity. }
  rewrite Hn.
  destruct (typing_more M fuel s (String c "")
              (with_emotion neutral
                 (with_display (formatNumber (String c "")) st)))
    as (st' & Hrun & Hdisp & Hpv & Hop & Hem).
  - simpl. now rewrite Hc.
  - exact Hh.
  - reflexivity.
  - exact Hs.
  - simpl in *. lia.
  - exists st'. split; [exact Hrun|]. split; [exact Hdisp|].
    split.
    + rewrite Hdisp. apply unformat_format_valid, digits_valid.
      simpl. now rewrite Hc.
    + split; [exact Hpv|]. split; [exact Hop|].
      destruct s as [|d s]; [|apply Hem; discriminate].
      simpl in Hrun. injection Hrun as <-. reflexivity.
Qed.

Lemma typing_shows_number_witness :
  exists st',
    run nanMath 0 (type_digits "1234567") (handleOperation "+" initialState)
    = Some st'
    /\ display st' = "1,234,567"
    /\ operation st' = Some "+".
Proof.
  destruct (typing_shows_number nanMath 0 "1234567"
              (handleOperation "+" initialState))
    as (st' & Hrun & Hd & _ & _ & Ho & _);
    try reflexivity; [unfold MAX_DIGITS; simpl; lia|].
  exists st'. split; [exact Hrun|]. split; [rewrite Hd; reflexivity|].
  rewrite Ho. reflexivity.
Defined.

(** X10: after the decimal point has been entered the unformatted display
    holds a point, and entering it again changes nothing. *)
Theorem decimal_point_once (st : CalculatorState) :
  handleDecimal (handleDecimal st) = handleDecimal st
  /\ includes_dot (unformatNumber (display (handleDecimal st))) = true.
Proof.
  assert (H : includes_dot (unformatNumber (display (handleDecimal st))) = true).
  { unfold handleDecimal.
    destruct (includes_dot (unformatNumber (display st))) eqn:Hdot; [exact Hdot|].
    cbn [display with_display]. apply includes_dot_format.
    rewrite includes_dot_app. apply orb_true_r. }
  split; [|exact H].
  unfold handleDecimal at 1. now rewrite H.
Qed.

Lemma slice_init_snoc (u : string) (c : ascii) :
  slice_init (u ++ String c "") = u.
Proof.
  induction u as [|d u IH]; [reflexivity|].
  change (String d u ++ String c "") with (String d (u ++ String c "")).
  destruct (u ++ String c "") as [|e t] eqn:E.
  - destruct u; discriminate E.
  - change (slice_init (String d (String e t)))
      with (String d (slice_init (String e t))).
    now rewrite IH.
Qed.

(** X11: in a reachable state with fewer than 16 unformatted characters,
    typing a digit and then backspace shows the display there was
    before. *)
Theorem backspace_undoes_digit (M : MathLib) (num : string)
  (st : CalculatorState) :
  reachable M st ->
  mem_string num digit_keys = true ->
  String.length (unformatNumber (display st)) < MAX_DIGITS ->
  display (handleBackspace (handleNumber num st)) = display st.
Proof.
  intros Hr Hk Hlen.
  destruct (reachable_consistent M any_event st Hr) as [Hv Hf].
  assert (Hne : display st <> "") by apply (reachable_well_formed M any_event st Hr).
  assert (Hc : exists c, num = String c "").
  { pose proof (digit_key_length num Hk) as Hl.
    destruct num as [|c [|]]; try discriminate. now exists c. }
  destruct Hc as [c ->].
  unfold handleNumber.
  replace (MAX_DIGITS <=? String.length (unformatNumber (display st)))%nat
    with false by (symmetry; apply Nat.leb_gt; exact Hlen).
  unfold handleBackspace. cbn [display with_emotion with_display].
  destruct (String.eqb (display st) "0") eqn:Hz.
  - apply String.eqb_eq in Hz. rewrite Hz.
    rewrite (unformat_format_valid (String c "")) by now apply digit_key_valid.
    reflexivity.
  - rewrite (unformat_format_valid (unformatNumber (display st) ++ String c ""))
      by now apply unformat_valid_app_digit.
    rewrite slice_init_snoc.
    destruct (unformatNumber (display st)) as [|d u] eqn:Eu.
    + exfalso. apply Hne. rewrite <- Hf. reflexivity.
    + exact Hf.
Qed.

Lemma backspace_undoes_digit_witness :
  display (handleBackspace (handleNumber "7" (handleNumber "5" initialState)))
  = "5"
  /\ display (handleBackspace (handleNumber "7" initialState)) = "0".
Proof.
  split.
  - change "5" with (display (handleNumber "5" initialState)) at 2.
    apply (backspace_undoes_digit nanMath); [|reflexivity|unfold MAX_DIGITS; simpl; lia].
    apply (reachable_step nanMath any_event initialState (EvNumber "5") 0);
      [constructor|reflexivity|reflexivity|reflexivity].
  - apply (backspace_undoes_digit nanMath "7" initialState);
      [constructor|reflexivity|unfold MAX_DIGITS; simpl; lia].
Defined.

Lemma operator_key_applies (op : string) (a b : number) :
  mem_string op operator_keys = true -> apply_operation (Some op) a b <> None.
Proof.
  unfold mem_string, operator_keys. simpl. intros H.
  repeat (apply orb_prop in H as [H|H];
          [apply String.eqb_eq in H; subst op; discriminate|]).
  discriminate H.
Qed.

(** X12: pressing equals twice is the same as pressing it once, and in a
    reachable state equals leaves the state as it is exactly when no
    operator is stored. *)
Theorem calculate_once (M : MathLib) (st : CalculatorState) :
  calculate (calculate st) = calculate st
  /\ (reachable M st -> (calculate st = st <-> operation st = None)).
Proof.
  split.
  - destruct (calculate_result st) as [r|] eqn:Hr.
    + assert (Hc : calculate st
                   = with_emotion (getEmotion r)
                       (with_pending "" None
                          (with_display (formatNumber (toString r)) st)))
        by (unfold calculate; now rewrite Hr).
      rewrite Hc. reflexivity.
    + assert (Hc : calculate st = st) by (unfold calculate; now rewrite Hr).
      now rewrite !Hc.
  - intros Hreach. split.
    + intros Heq. destruct (operation st) as [op|] eqn:Hop; [exfalso|reflexivity].
      destruct (reachable_well_formed M any_event st Hreach) as (_ & _ & Hk).
      pose proof (operator_key_applies op
                    (parseFloat (unformatNumber (previousValue st)))
                    (parseFloat (unformatNumber (display st)))
                    (Hk op Hop)) as Hn.
      unfold calculate, calculate_result in Heq. rewrite Hop in Heq.
      destruct (apply_operation (Some op) _ _) as [r|]; [|congruence].
      cbn [option_map] in Heq.
      assert (Ho : operation st = None) by (rewrite <- Heq; reflexivity).
      congruence.
    + intros Hop. unfold calculate, calculate_result. now rewrite Hop.
Qed.

Lemma calculate_once_witness :
  calculate initialState = initialState
  /\ calculate (handleOperation "+" initialState) <> handleOperation "+" initialState.
Proof.
  destruct (calculate_once nanMath initialState) as [_ H1].
  destruct (calculate_once nanMath (handleOperation "+" initialState)) as [_ H2].
  split.
  - apply H1; [constructor|reflexivity].
  - intros Heq. apply H2 in Heq; [discriminate Heq|].
    apply (reachable_step nanMath any_event initialState (EvOperation "+") 0);
      [constructor|reflexivity|reflexivity|reflexivity].
Defined.

Lemma typing_first_digit (c : ascii) (st : CalculatorState) :
  display st = "0" ->
  handleNumber (String c "") st
  = with_emotion neutral (with_display (formatNumber (String c "")) st).
Proof. intros Hd. unfold handleNumber. rewrite Hd. reflexivity. Qed.

(** X13: selecting an operator right after another one is the same as
    clearing and then selecting it: the first operator and the operand it
    had captured are gone.  Whatever was displayed before the two
    selections, a number typed next is combined with 0: the evaluation
    computes [0 op2 number]. *)
Theorem second_operator_forgets (M : MathLib) (fuel : nat) (op1 op2 : string)
  (st : CalculatorState) :
  handleOperation op2 (handleOperation op1 st) = handleOperation op2 (clear st)
  /\ (forall s,
         mem_string op2 operator_keys = true ->
         all_digits s = true -> head_nonzero s = true ->
         String.length s <= MAX_DIGITS ->
         exists st',
           run M fuel (EvOperation op2 :: type_digits s) (handleOperation op1 st)
           = Some st'
           /\ calculate_result st'
              = option_map shorten
                  (apply_operation (Some op2) (parseFloat "0") (parseFloat s))).
Proof.
  split; [reflexivity|].
  intros s Hop Hs Hh Hl. cbn [run enabled step]. rewrite Hop.
  destruct s as [|c s]; [discriminate|].
  simpl in Hs. apply andb_prop in Hs as [Hc Hs].
  change (type_digits (String c s))
    with (EvNumber (String c "") :: type_digits s).
  cbn [run enabled step]. rewrite (digit_char_key c Hc).
  rewrite typing_first_digit by reflexivity.
  destruct (typing_more M fuel s (String c "")
              (with_emotion neutral
                 (with_display (formatNumber (String c ""))
                    (handleOperation op2 (handleOperation op1 st)))))
    as (st' & Hrun & Hdisp & Hpv & Hopn & _).
  - simpl. now rewrite Hc.
  - exact Hh.
  - reflexivity.
  - exact Hs.
  - simpl in *. lia.
  - exists st'. split; [exact Hrun|].
    unfold calculate_result. rewrite Hdisp, Hpv, Hopn.
    rewrite unformat_format_valid
      by (apply digits_valid; simpl; now rewrite Hc).
    reflexivity.
Qed.

Lemma second_operator_forgets_witness :
  exists st',
    run nanMath 0 (EvOperation "×" :: type_digits "3")
      (handleOperation "+" (with_display "5" initialState)) = Some st'
    /\ display (calculate st') = "0".
Proof.
  destruct (second_operator_forgets nanMath 0 "+" "×"
              (with_display "5" initialState)) as [_ H].
  destruct (H "3") as (st' & Hrun & Hres);
    try reflexivity; [unfold MAX_DIGITS; simpl; lia|].
  exists st'. split; [exact Hrun|].
  unfold calculate. rewrite Hres. vm_compute. reflexivity.
Defined.

(** X14: toggling the mode twice, or the angle unit twice, gives the
    state back, and the two toggles commute. *)
Theorem toggles_involutive (st : CalculatorState) :
  toggleMode (toggleMode st) = st
  /\ toggleAngleUnit (toggleAngleUnit st) = st
  /\ toggleMode (toggleAngleUnit st) = toggleAngleUnit (toggleMode st).
Proof.
  destruct st as [d pv op em mo me an].
  unfold toggleMode, toggleAngleUnit; simpl.
  destruct mo, an; repeat split.
Qed.

(** X15: a digit typed right after a result is appended to the result
    (unless the result reads ["0"] or already has 16 characters): it does
    not start a new number. *)
Theorem digit_after_result (num : string) (st : CalculatorState)
  (result : number) :
  calculate_result st = Some result ->
  mem_string num digit_keys = true ->
  toString result <> "0" ->
  String.length (toString result) < MAX_DIGITS ->
  display (handleNumber num (calculate st))
  = formatNumber (toString result ++ num).
Proof.
  intros Hres Hk Hnz Hlen. unfold calculate. rewrite Hres.
  unfold handleNumber. cbn [display with_emotion with_pending with_display].
  rewrite (unformat_format_valid (toString result)) by apply toString_valid.
  replace (MAX_DIGITS <=? String.length (toString result))%nat
    with false by (symmetry; apply Nat.leb_gt; exact Hlen).
  replace (String.eqb (formatNumber (toString result)) "0") with false;
    [reflexivity|].
  symmetry. apply String.eqb_neq. intros Hz. apply Hnz.
  now apply format_zero_only; [apply toString_valid|].
Qed.

Lemma digit_after_result_witness :
  display
    (handleNumber "7"
       (calculate (with_pending "2" (Some "+") (with_display "3" initialState))))
  = "57".
Proof.
  rewrite (digit_after_result "7" _ (of_Z 5)).
  - vm_compute. reflexivity.
  - vm_compute. reflexivity.
  - reflexivity.
  - vm_compute. discriminate.
  - vm_compute. lia.
Defined.

(* ================================================================== *)
(** * Scientific functions: domain errors, constants, factorial *)

Lemma apply_function_factorial (M : MathLib) (fuel : nat) (unit : AngleUnit)
  (x : number) :
  apply_function M fuel unit "!" x = option_map Some (factorial fuel x).
Proof. reflexivity. Qed.

Lemma apply_function_inv (M : MathLib) (fuel : nat) (unit : AngleUnit)
  (x : number) :
  apply_function M fuel unit "inv" x = Some (Some (div (of_Z 1) x)).
Proof. reflexivity. Qed.

Lemma apply_function_sqrt (M : MathLib) (fuel : nat) (unit : AngleUnit)
  (x : number) :
  apply_function M fuel unit "sqrt" x = Some (Some (sqrt x)).
Proof. reflexivity. Qed.

(** X16: when the display reads as NaN (the ["Error"] display does) or as
    +Infinity, the factorial button never yields a state: the recursion
    does not return. *)
Theorem factorial_of_error_display (M : MathLib) (fuel : nat)
  (st : CalculatorState) :
  isNaN (parseFloat (unformatNumber (display st))) = true
  \/ parseFloat (unformatNumber (display st)) = Infinity ->
  handleScientific M fuel "!" st = None.
Proof.
  intros H. unfold handleScientific. rewrite apply_function_factorial.
  assert (Hf : factorial fuel (parseFloat (unformatNumber (display st))) = None).
  { destruct H as [H|H].
    - destruct (parseFloat (unformatNumber (display st))); try discriminate.
      apply factorial_stuck; reflexivity.
    - rewrite H. apply factorial_stuck; reflexivity. }
  now rewrite Hf.
Qed.

Lemma factorial_of_error_display_witness :
  exists st,
    run nanMath 0 [EvToggleMode; EvScientific "inv"] initialState = Some st
    /\ display st = "Error"
    /\ handleScientific nanMath 1000 "!" st = None.
Proof.
  eexists. split; [vm_compute; reflexivity|]. split; [reflexivity|].
  apply factorial_of_error_display. left. vm_compute. reflexivity.
Defined.

(** X17: [1/x] on a display that reads as zero and the square root on a
    display that reads as a negative number both give the ["Error"]
    display with the sad emotion, whatever the rest of the state. *)
Theorem domain_errors_show_error (M : MathLib) (fuel : nat) (func : string)
  (st : CalculatorState) :
  (func = "inv" /\ is_zero (parseFloat (unformatNumber (display st))) = true)
  \/ (func = "sqrt"
      /\ is_negative (parseFloat (unformatNumber (display st))) = true) ->
  handleScientific M fuel func st
  = Some (with_emotion sad (with_display "Error" st)).
Proof.
  intros [[-> H]|[-> H]]; unfold handleScientific.
  - rewrite apply_function_inv.
    destruct (parseFloat (unformatNumber (display st))) as [s| | |];
      try discriminate.
    destruct s; reflexivity.
  - rewrite apply_function_sqrt.
    destruct (parseFloat (unformatNumber (display st))) as [|[|]| |[|] m e];
      try discriminate; reflexivity.
Qed.

Lemma domain_errors_show_error_witness :
  handleScientific nanMath 0 "inv" initialState
  = Some (with_emotion sad (with_display "Error" initialState))
  /\ handleScientific nanMath 0 "sqrt" (with_display "-0.25" initialState)
     = Some (with_emotion sad (with_display "Error" (with_display "-0.25" initialState))).
Proof.
  split; apply domain_errors_show_error.
  - left. split; [reflexivity|vm_compute; reflexivity].
  - right. split; [reflexivity|vm_compute; reflexivity].
Defined.

Lemma toString_PI : toString PI = "3.141592653589793".
Proof. vm_compute. reflexivity. Qed.

Lemma toString_E : toString E = "2.718281828459045".
Proof. vm_compute. reflexivity. Qed.

(** X18: [pi] and [e] replace the display whatever it was, by
    ["3.141592653589793"] and ["2.718281828459045"], with the neutral
    emotion; the first has 17 characters, one more than the digit cap. *)
Theorem constants_replace_display (M : MathLib) (fuel : nat)
  (st : CalculatorState) :
  handleScientific M fuel "pi" st
  = Some (with_emotion neutral (with_display "3.141592653589793" st))
  /\ handleScientific M fuel "e" st
     = Some (with_emotion neutral (with_display "2.718281828459045" st))
  /\ String.length "3.141592653589793" = S MAX_DIGITS.
Proof.
  assert (Hpi : scientific_state PI st
                = with_emotion neutral (with_display "3.141592653589793" st)).
  { unfold scientific_state.
    replace (isNaN PI || negb (isFinite PI)) with false by (vm_compute; reflexivity).
    replace (getEmotion PI) with neutral by (vm_compute; reflexivity).
    rewrite toString_PI. reflexivity. }
  assert (He : scientific_state E st
               = with_emotion neutral (with_display "2.718281828459045" st)).
  { unfold scientific_state.
    replace (isNaN E || negb (isFinite E)) with false by (vm_compute; reflexivity).
    replace (getEmotion E) with neutral by (vm_compute; reflexivity).
    rewrite toString_E. reflexivity. }
  split; [|split; [|reflexivity]].
  - unfold handleScientific.
    change (apply_function M fuel (angleUnit st) "pi"
              (parseFloat (unformatNumber (display st)))) with (Some (Some PI)).
    lazy beta iota. now rewrite Hpi.
  - unfold handleScientific.
    change (apply_function M fuel (angleUnit st) "e"
              (parseFloat (unformatNumber (display st)))) with (Some (Some E)).
    lazy beta iota. now rewrite He.
Qed.

Lemma factorial_shows_upto_21 : forallb factorial_shows (seq 0 22) = true.
Proof. vm_compute. reflexivity. Qed.

(** X19: on a display that reads as an integer from 0 to 21 the factorial
    button shows the factorial of that integer exactly, digit for digit,
    with grouping separators. *)
Theorem factorial_of_small_integer (M : MathLib) (n : nat)
  (st : CalculatorState) :
  n <= 21 ->
  parseFloat (unformatNumber (display st)) = of_Z (Z.of_nat n) ->
  exists st',
    handleScientific M (S n) "!" st = Some st'
    /\ display st' = formatNumber (digits10 (Z.to_N (Zfact n))).
Proof.
  intros Hn Hp.
  assert (Hs : factorial_shows n = true).
  { pose proof factorial_shows_upto_21 as H.
    rewrite forallb_forall in H. apply H. apply in_seq. lia. }
  unfold factorial_shows in Hs.
  unfold handleScientific. rewrite apply_function_factorial, Hp.
  destruct (factorial (S n) (of_Z (Z.of_nat n))) as [r|]; [|discriminate].
  apply andb_prop in Hs as [Hfin Hstr]. apply String.eqb_eq in Hstr.
  apply negb_true_iff in Hfin.
  eexists. split; [reflexivity|].
  unfold scientific_state. rewrite Hfin. cbn [display with_emotion with_display].
  now rewrite Hstr.
Qed.

Lemma factorial_of_small_integer_witness :
  exists st',
    handleScientific nanMath 11 "!" (with_display "10" initialState) = Some st'
    /\ display st' = "3,628,800".
Proof.
  destruct (factorial_of_small_integer nanMath 10 (with_display "10" initialState))
    as (st' & Hs & Hd); [lia|vm_compute; reflexivity|].
  exists st'. split; [exact Hs|]. rewrite Hd. vm_compute. reflexivity.
Defined.

(* ================================================================== *)
(** * Emotions *)

Lemma of_Z_1000 : of_Z 1000 = S754_finite false 8796093022208000 (-43).
Proof. vm_compute. reflexivity. Qed.

Lemma of_Z_100 : of_Z 100 = S754_finite false 7036874417766400 (-46).
Proof. vm_compute. reflexivity. Qed.

(** X20: the emotion of a result is sad exactly when the result is below
    zero, that is a negative non-zero number or -Infinity: the two tests
    that come first never take a negative result away. *)
Theorem sad_iff_negative (result : number) :
  (getEmotion result = sad <-> lt result (of_Z 0) = true)
  /\ (lt result (of_Z 0) = true <-> is_negative result = true).
Proof.
  unfold getEmotion, gt, lt. rewrite of_Z_1000, of_Z_100, of_Z_0.
  destruct result as [s|[|]| |[|] m e]; unfold SFltb; cbn [SFcompare is_negative];
    try (split; split; intros H; first [discriminate H | reflexivity]).
  (* positive finite: whatever the two thresholds say, never sad *)
  destruct (Z.compare (-43) e); destruct (Z.compare (-46) e);
    try destruct (Pos.compare_cont Eq 8796093022208000 m);
    try destruct (Pos.compare_cont Eq 7036874417766400 m);
    split; split; intros H; discriminate H.
Qed.

(** X21: a division by zero shows ["NaN"] with the neutral emotion,
    ["Infinity"] with the excited one or ["-Infinity"] with the sad
    one. *)
Theorem divide_by_zero_emotion (st : CalculatorState) :
  operation st = Some "÷" ->
  is_zero (parseFloat (unformatNumber (display st))) = true ->
  (display (calculate st) = "NaN" /\ emotion (calculate st) = neutral)
  \/ (display (calculate st) = "Infinity" /\ emotion (calculate st) = excited)
  \/ (display (calculate st) = "-Infinity" /\ emotion (calculate st) = sad).
Proof.
  intros Hop Hz.
  assert (Hres : calculate_result st
                 = Some (shorten
                           (div (parseFloat (unformatNumber (previousValue st)))
                                (parseFloat (unformatNumber (display st)))))).
  { unfold calculate_result. rewrite Hop. reflexivity. }
  unfold calculate. rewrite Hres.
  cbn [display emotion with_emotion with_pending with_display].
  destruct (div_by_zero (parseFloat (unformatNumber (previousValue st))) _ Hz)
    as [H|[H|H]]; rewrite H.
  - left. split; vm_compute; reflexivity.
  - right. left. split; vm_compute; reflexivity.
  - right. right. split; vm_compute; reflexivity.
Qed.

Lemma divide_by_zero_emotion_witness :
  display (calculate (with_pending "5" (Some "÷") initialState)) = "Infinity"
  /\ emotion (calculate (with_pending "5" (Some "÷") initialState)) = excited.
Proof.
  destruct (divide_by_zero_emotion (with_pending "5" (Some "÷") initialState))
    as [[H _]|[H|[H _]]]; try (vm_compute; reflexivity).
  - vm_compute in H. discriminate H.
  - exact H.
  - vm_compute in H. discriminate H.
Defined.

(* ================================================================== *)
(** * Arithmetic laws that the display inherits *)

Lemma add_comm (x y : number) : add x y = add y x.
Proof.
  unfold add.
  destruct x as [sx|sx| |sx mx ex], y as [sy|sy| |sy my ey];
    try reflexivity; try (destruct sx, sy; reflexivity).
  unfold SFadd. now rewrite Z.min_comm, Z.add_comm.
Qed.

Lemma mul_comm (x y : number) : mul x y = mul y x.
Proof.
  unfold mul.
  destruct x as [sx|sx| |sx mx ex], y as [sy|sy| |sy my ey];
    try reflexivity; try (destruct sx, sy; reflexivity).
  unfold SFmul. now rewrite xorb_comm, Pos.mul_comm, Z.add_comm.
Qed.

Lemma sub_self (x : number) : isFinite x = true -> sub x x = S754_zero false.
Proof.
  unfold sub. destruct x as [s|s| |s m e]; try discriminate; intros _.
  - destruct s; reflexivity.
  - unfold SFsub. rewrite Z.sub_diag. reflexivity.
Qed.

(** X22: addition and multiplication do not depend on the order of the
    operands: evaluating [a + b] and [b + a] (or [a × b] and [b × a])
    from the same state gives the same state. *)
Theorem operands_commute (op a b : string) (st : CalculatorState) :
  op = "+" \/ op = "×" ->
  calculate (with_pending a (Some op) (with_display b st))
  = calculate (with_pending b (Some op) (with_display a st)).
Proof.
  intros Hop. unfold calculate, calculate_result.
  cbn [operation previousValue display with_pending with_display].
  destruct Hop as [-> | ->].
  - change (apply_operation (Some "+") ?x ?y) with (Some (add x y)).
    rewrite (add_comm (parseFloat (unformatNumber a))). reflexivity.
  - change (apply_operation (Some "×") ?x ?y) with (Some (mul x y)).
    rewrite (mul_comm (parseFloat (unformatNumber a))). reflexivity.
Qed.

Lemma operands_commute_witness :
  display (calculate (with_pending "0.1" (Some "+") (with_display "0.7" initialState)))
  = "0.8"
  /\ display (calculate (with_pending "0.7" (Some "+") (with_display "0.1" initialState)))
     = "0.8".
Proof.
  rewrite (operands_commute "+" "0.7" "0.1" initialState) by now left.
  split; vm_compute; reflexivity.
Defined.

(** X23: subtracting a finite number from itself shows ["0"] with the
    neutral emotion. *)
Theorem difference_with_itself (st : CalculatorState) :
  operation st = Some "-" ->
  parseFloat (unformatNumber (previousValue st))
  = parseFloat (unformatNumber (display st)) ->
  isFinite (parseFloat (unformatNumber (display st))) = true ->
  display (calculate st) = "0" /\ emotion (calculate st) = neutral.
Proof.
  intros Hop Heq Hfin.
  assert (Hres : calculate_result st = Some (S754_zero false)).
  { unfold calculate_result. rewrite Hop, Heq.
    change (apply_operation (Some "-") ?x ?y) with (Some (sub x y)).
    rewrite (sub_self _ Hfin). reflexivity. }
  unfold calculate. rewrite Hres. split; reflexivity.
Qed.

Lemma difference_with_itself_witness :
  display (calculate (with_pending "1,234.5" (Some "-")
                        (with_display "1,234.5" initialState))) = "0".
Proof.
  apply difference_with_itself; vm_compute; reflexivity.
Defined.

(* ================================================================== *)
(** * What the updaters read of the mode and of the angle unit *)

Lemma scientific_state_toggleMode (r : number) (st : CalculatorState) :
  scientific_state r (toggleMode st) = toggleMode (scientific_state r st).
Proof. unfold scientific_state. now destruct (isNaN r || negb (isFinite r)). Qed.

Lemma scientific_state_toggleAngleUnit (r : number) (st : CalculatorState) :
  scientific_state r (toggleAngleUnit st) = toggleAngleUnit (scientific_state r st).
Proof. unfold scientific_state. now destruct (isNaN r || negb (isFinite r)). Qed.

(** Outside sine, cosine and tangent the unit does not matter. *)
Lemma apply_function_unit (M : MathLib) (fuel : nat) (u v : AngleUnit)
  (func : string) (x : number) :
  mem_string func ["sin"; "cos"; "tan"] = false ->
  apply_function M fuel u func x = apply_function M fuel v func x.
Proof.
  unfold mem_string. simpl. intros H.
  apply orb_false_elim in H as [H1 H].
  apply orb_false_elim in H as [H2 H].
  apply orb_false_elim in H as [H3 _].
  unfold apply_function. now rewrite H1, H2, H3.
Qed.

(** X24: no updater reads the mode: handling an event after toggling the
    mode gives the state that toggling after the event gives.  The angle
    unit is read by sine, cosine and tangent only: every other event
    commutes with the angle-unit toggle in the same way. *)
Theorem toggles_commute_with_updaters (M : MathLib) (fuel : nat) (ev : Event)
  (st : CalculatorState) :
  step M fuel ev (toggleMode st) = option_map toggleMode (step M fuel ev st)
  /\ (match ev with
      | EvScientific func => mem_string func ["sin"; "cos"; "tan"] = false
      | _ => True
      end ->
      step M fuel ev (toggleAngleUnit st)
      = option_map toggleAngleUnit (step M fuel ev st)).
Proof.
  split.
  - destruct ev; cbn [step option_map]; try reflexivity.
    + unfold handleNumber. cbn [display toggleMode].
      now destruct (MAX_DIGITS <=? String.length (unformatNumber (display st)))%nat.
    + unfold handleDecimal. cbn [display toggleMode].
      now destruct (includes_dot (unformatNumber (display st))).
    + unfold calculate, calculate_result.
      cbn [display previousValue operation toggleMode].
      now destruct (option_map shorten _).
    + unfold handlePercent, pending.
      cbn [display previousValue operation toggleMode].
      now destruct (truthy (previousValue st) && _).
    + unfold handleScientific. cbn [display angleUnit toggleMode].
      destruct (apply_function M fuel (angleUnit st) func _) as [[r|]|];
        cbn [option_map]; try reflexivity.
      now rewrite scientific_state_toggleMode.
  - intros Hev. destruct ev; cbn [step option_map]; try reflexivity.
    + unfold handleNumber. cbn [display toggleAngleUnit].
      now destruct (MAX_DIGITS <=? String.length (unformatNumber (display st)))%nat.
    + unfold handleDecimal. cbn [display toggleAngleUnit].
      now destruct (includes_dot (unformatNumber (display st))).
    + unfold calculate, calculate_result.
      cbn [display previousValue operation toggleAngleUnit].
      now destruct (option_map shorten _).
    + unfold handlePercent, pending.
      cbn [display previousValue operation toggleAngleUnit].
      now destruct (truthy (previousValue st) && _).
    + unfold handleScientific. cbn [display angleUnit toggleAngleUnit].
      rewrite (apply_function_unit M fuel _ (angleUnit st) func _ Hev).
      destruct (apply_function M fuel (angleUnit st) func _) as [[r|]|];
        cbn [option_map]; try reflexivity.
      now rewrite scientific_state_toggleAngleUnit.
Qed.

Lemma toggles_commute_with_updaters_witness :
  handleScientific nanMath 0 "sqrt" (toggleAngleUnit (with_display "16" initialState))
  = Some (toggleAngleUnit
            (with_emotion neutral (with_display "4" (with_display "16" initialState)))).
Proof.
  destruct (toggles_commute_with_updaters nanMath 0 (EvScientific "sqrt")
              (with_display "16" initialState)) as [_ H].
  cbn [step] in H. rewrite H by reflexivity.
  vm_compute. reflexivity.
Defined.
